(** * devops_canary: the prober, the alarm declarations and the alarm logger

    A shallow embedding of
      - [lambda/crawler.py]        (module [Crawler]),
      - [lambda/alarm_logger.py]   (module [AlarmLogger]),
      - the alarm declarations of [devops_canary/devops_canary_stack.py]
        (module [Stack]),
    with the evaluation tick of the metric backend that reads those
    declarations (module [Evaluator]) and a few concrete environments and
    events (module [Samples]), followed by the properties of the
    specification that concern them.

    A handler is a computation over a world, the list of what it has read
    from and done to the outside so far; the outside (clock, network, metric
    sink, record store, JSON library) is a record of functions of that
    world, over which every property is quantified.

    Python [float] is IEEE binary64 and is modelled by Rocq's primitive
    floats; Python [int] by [Z]; Python [str] by [string], one element per
    character. *)

From Stdlib Require Import List String Ascii ZArith Bool Arith Lia Floats.
From Stdlib Require Import DecimalString.
Import ListNotations.

Set Warnings "-inexact-float,-register-all".

Local Open Scope string_scope.
Local Open Scope list_scope.

(* ================================================================== *)
(** * Python values, exceptions and effects *)
(* ================================================================== *)

Module Py.

(** An exception that [except Exception] catches: its class and [str(e)]. *)
Inductive Exn : Set :=
| Exc (cls : string) (msg : string).

Definition str_of_exn (e : Exn) : string :=
  match e with Exc _ msg => msg end.

(** What a call does: it returns a value or raises. *)
Inductive Res (A : Type) : Type :=
| Ok (a : A)
| Raise (e : Exn).
Arguments Ok {A} a.
Arguments Raise {A} e.

(** A computation over a world [W] (the record of what the handler has read
    from and done to the outside): it ends by returning or by raising, and
    the world it leaves is kept in both cases. *)
Definition M (W A : Type) : Type := W -> Res A * W.

Definition ret {W A : Type} (a : A) : M W A :=
  fun w => (Ok a, w).

Definition raise {W A : Type} (e : Exn) : M W A :=
  fun w => (Raise e, w).

Definition bind {W A B : Type} (m : M W A) (k : A -> M W B) : M W B :=
  fun w =>
    match m w with
    | (Ok a, w') => k a w'
    | (Raise e, w') => (Raise e, w')
    end.

(** [try: body / except Exception as e: handler e]. *)
Definition try_except {W A : Type} (body : M W A) (handler : Exn -> M W A)
  : M W A :=
  fun w =>
    match body w with
    | (Ok a, w') => (Ok a, w')
    | (Raise e, w') => handler e w'
    end.

(** The values [json.loads] produces, which are also the values of a
    Lambda event.  A [dict] keeps its items in insertion order; its keys are
    strings and pairwise distinct, so a lookup finds the one binding. *)
Inductive value : Set :=
| VNone
| VBool (b : bool)
| VInt (z : Z)
| VFloat (f : float)
| VStr (s : string)
| VList (l : list value)
| VDict (d : list (string * value)).

Fixpoint lookup (k : string) (d : list (string * value)) : option value :=
  match d with
  | [] => None
  | (k', v) :: d' => if String.eqb k' k then Some v else lookup k d'
  end.

(** [bool(v)]. *)
Definition truthy (v : value) : bool :=
  match v with
  | VNone => false
  | VBool b => b
  | VInt z => negb (Z.eqb z 0)
  | VFloat f => negb (PrimFloat.eqb f 0%float)
  | VStr s => negb (String.eqb s "")
  | VList l => match l with [] => false | _ => true end
  | VDict d => match d with [] => false | _ => true end
  end.

(** [a or b], both operands already evaluated (neither can raise here). *)
Definition or_ (a b : value) : value :=
  if truthy a then a else b.

(** [v == s] for a string literal [s]. *)
Definition eq_str (v : value) (s : string) : bool :=
  match v with
  | VStr t => String.eqb t s
  | _ => false
  end.

Definition type_name (v : value) : string :=
  match v with
  | VNone => "NoneType"
  | VBool _ => "bool"
  | VInt _ => "int"
  | VFloat _ => "float"
  | VStr _ => "str"
  | VList _ => "list"
  | VDict _ => "dict"
  end.

(** [v.get(k, default)]: only a [dict] has [get]. *)
Definition get {W : Type} (v : value) (k : string) (default : value)
  : M W value :=
  match v with
  | VDict d =>
      match lookup k d with
      | Some x => ret x
      | None => ret default
      end
  | _ => raise (Exc "AttributeError"
                    ("'" ++ type_name v ++ "' object has no attribute 'get'"))
  end.

(** [v[k]] for a string key [k]. *)
Definition getitem {W : Type} (v : value) (k : string) : M W value :=
  match v with
  | VDict d =>
      match lookup k d with
      | Some x => ret x
      | None => raise (Exc "KeyError" ("'" ++ k ++ "'"))
      end
  | VList _ => raise (Exc "TypeError" "list indices must be integers or slices, not str")
  | VStr _ => raise (Exc "TypeError" "string indices must be integers, not 'str'")
  | _ => raise (Exc "TypeError"
                    ("'" ++ type_name v ++ "' object is not subscriptable"))
  end.

Fixpoint chars (s : string) : list value :=
  match s with
  | EmptyString => []
  | String c s' => VStr (String c EmptyString) :: chars s'
  end.

(** The elements [for x in v] goes through: those of a list, the characters
    of a string, the keys of a dict; the other values are not iterable. *)
Definition iter {W : Type} (v : value) : M W (list value) :=
  match v with
  | VList l => ret l
  | VStr s => ret (chars s)
  | VDict d => ret (map (fun kv => VStr (fst kv)) d)
  | _ => raise (Exc "TypeError"
                    ("'" ++ type_name v ++ "' object is not iterable"))
  end.

(** [s[:n]]. *)
Definition slice_to (n : nat) (s : string) : string := substring 0 n s.

(** [v.get(k, default)] on the items of a dict. *)
Definition get_or (k : string) (d : list (string * value)) (default : value)
  : value :=
  match lookup k d with
  | Some x => x
  | None => default
  end.

Definition is_dict (v : value) : bool :=
  match v with
  | VDict _ => true
  | _ => false
  end.

(** A computation that leaves the world as it found it. *)
Definition silent {W A : Type} (m : M W A) : Prop :=
  forall w, snd (m w) = w.

End Py.

Declare Scope py_scope.
Delimit Scope py_scope with py.
Notation "x <- m ;; k" := (Py.bind m (fun x => k))
  (at level 61, m at next level, right associativity) : py_scope.
Notation "m ;;; k" := (Py.bind m (fun _ => k))
  (at level 61, right associativity) : py_scope.

(* ================================================================== *)
(** * lambda/crawler.py *)
(* ================================================================== *)

Module Crawler.
Import Py.
Local Open Scope py_scope.

Definition NAMESPACE : string := "WebsiteHealth".

(** [Value] of a metric datum: [status_val] is an [int], [latency_ms] a
    [float]. *)
Inductive number : Set :=
| NInt (z : Z)
| NFloat (f : float).

Record Dimension : Set := mkDimension {
  Name : string;
  Value : string
}.

Record MetricDatum : Set := mkMetricDatum {
  MetricName : string;
  Dimensions : list Dimension;
  datum_Value : number;
  Unit : string
}.

(** One entry of [results]: [{"url":, "status":, "latency_ms":}]. *)
Record Result : Set := mkResult {
  url : string;
  status : Z;
  latency_ms : float
}.

(** [urllib.request.Request(url, headers=...)]. *)
Record Request : Set := mkRequest {
  full_url : string;
  headers : list (string * string)
}.

(** What the handler returns: [{"statusCode":, "body":}]. *)
Record Response : Set := mkResponse {
  statusCode : Z;
  body : list Result
}.

(** What the handler has observed and done so far, the latest first. *)
Inductive Event : Set :=
| ETime (t : float)
| EUrlopen (req : Request) (timeout : Z) (r : Res Z)
| EPrint (line : string)
| EPrintResults (results : list Result)
| EPutMetricData (ns : string) (data : list MetricDatum) (failure : option Exn).

Definition World : Set := list Event.

(** The outside of the handler.  Every answer may depend on all that
    happened before. *)
Record Env : Type := mkEnv {
  (** the content of the deployed asset [sites.json] *)
  sites_json : list string;
  (** [urllib.request.Request(url, ...)] raises on a malformed URL *)
  request_error : string -> option Exn;
  (** [time.time()] *)
  clock : World -> float;
  (** [urlopen(req, timeout=)] then [resp.getcode()]: the status code of the
      response, or the exception [urlopen] raises *)
  urlopen_result : World -> Request -> Z -> Res Z;
  (** [cloudwatch.put_metric_data]: [None] when the call returns *)
  put_metric_data_failure : World -> string -> list MetricDatum -> option Exn
}.

Section WithEnv.
Variable env : Env.

Definition time : M World float :=
  fun w => let t := clock env w in (Ok t, ETime t :: w).

Definition mk_request (u : string) (hs : list (string * string))
  : M World Request :=
  match request_error env u with
  | Some e => raise e
  | None => ret {| full_url := u; headers := hs |}
  end.

Definition urlopen (req : Request) (timeout : Z) : M World Z :=
  fun w =>
    let r := urlopen_result env w req timeout in
    (r, EUrlopen req timeout r :: w).

Definition print (line : string) : M World unit :=
  fun w => (Ok tt, EPrint line :: w).

Definition print_results (results : list Result) : M World unit :=
  fun w => (Ok tt, EPrintResults results :: w).

Definition put_metric_data (ns : string) (data : list MetricDatum)
  : M World unit :=
  fun w =>
    let f := put_metric_data_failure env w ns data in
    (match f with None => Ok tt | Some e => Raise e end,
     EPutMetricData ns data f :: w).

(** [_http_get(url, timeout_sec=10)]: the status code and the latency in
    milliseconds. *)
Definition _http_get (u : string) (timeout_sec : Z) : M World (Z * float) :=
  req <- mk_request u [("User-Agent", "Canary/1.0")] ;;
  start <- time ;;
  code <- urlopen req timeout_sec ;;
  now <- time ;;
  let latency_ms := ((now - start) * 1000)%float in
  ret (code, latency_ms).

(** The [try]/[except] of the loop body: the values of [status_val] and
    [latency_ms] after it. *)
Definition probe (u : string) : M World (Z * float) :=
  try_except
    (cl <- _http_get u 10 ;;
     let latency_ms := snd cl in
     let status_val := if Z.eqb (fst cl) 200 then 1%Z else 0%Z in
     ret (status_val, latency_ms))
    (fun e =>
       print ("[ERROR] " ++ u ++ ": " ++ str_of_exn e) ;;;
       ret (0%Z, 0%float)).

Definition metric_data (u : string) (status_val : Z) (latency_ms : float)
  : list MetricDatum :=
  [ {| MetricName := "Availability";
       Dimensions := [ {| Name := "URL"; Value := u |} ];
       datum_Value := NInt status_val;
       Unit := "Count" |};
    {| MetricName := "Latency";
       Dimensions := [ {| Name := "URL"; Value := u |} ];
       datum_Value := NFloat latency_ms;
       Unit := "Milliseconds" |} ].

(** One turn of [for url in sites]: probe, publish, give the summary. *)
Definition handler_body (u : string) : M World Result :=
  sl <- probe u ;;
  put_metric_data NAMESPACE (metric_data u (fst sl) (snd sl)) ;;;
  ret {| url := u; status := fst sl; latency_ms := snd sl |}.

(** [for url in sites: ...; results.append(...)]. *)
Fixpoint handler_loop (sites : list string) (results : list Result)
  : M World (list Result) :=
  match sites with
  | [] => ret results
  | u :: rest =>
      r <- handler_body u ;;
      handler_loop rest (results ++ [r])
  end.

(** [handler(event, context)] from [results = []] on, once lines 20 to 22
    have bound [sites] to the list [sites_json env] of URL strings; neither
    argument is used.  The load itself is in [handler_from_asset] below. *)
Definition handler : M World Response :=
  results <- handler_loop (sites_json env) [] ;;
  print_results results ;;;
  ret {| statusCode := 200; body := results |}.

End WithEnv.




(** The [metric_data] published for a target whose summary is [r]. *)
Definition samples_of (r : Result) : list MetricDatum :=
  metric_data (url r) (status r) (latency_ms r).

(** The publish calls of a world, the earliest first. *)
Fixpoint publish_calls (w : World) : list (list MetricDatum) :=
  match w with
  | [] => []
  | EPutMetricData _ data _ :: w' => publish_calls w' ++ [data]
  | _ :: w' => publish_calls w'
  end.


(** The URLs that were requested, the earliest first. *)
Fixpoint probed (w : World) : list string :=
  match w with
  | [] => []
  | EUrlopen req _ _ :: w' => probed w' ++ [full_url req]
  | _ :: w' => probed w'
  end.

End Crawler.

(* ================================================================== *)
(** * lambda/alarm_logger.py *)
(* ================================================================== *)

Module AlarmLogger.
Import Py.
Local Open Scope py_scope.

(** The [Item] handed to [table.put_item]. *)
Record Item : Set := mkItem {
  AlarmName : string;
  Timestamp : string;
  NewStateValue : string;
  NewStateReason : string;
  MetricName : string;
  Namespace : string;
  URL : value;
  Raw : string
}.

(** What the handler returns: [{"statusCode": 200}]. *)
Record Response : Set := mkResponse {
  statusCode : Z
}.

(** What the handler has observed and done so far, the latest first. *)
Inductive Event : Set :=
| ENow (iso : string)
| EPutItem (item : Item) (failure : option Exn).

Definition World : Set := list Event.

(** The outside of the handler and the library functions it calls. *)
Record Env : Type := mkEnv {
  (** [datetime.now(timezone.utc).isoformat()] *)
  utcnow_isoformat : World -> string;
  (** [table.put_item(Item=item)]: [None] when the write returns *)
  put_item_failure : World -> Item -> option Exn;
  (** [json.loads] on a [str]: the value, or the exception it raises *)
  json_loads : string -> Res value;
  (** [json.dumps] *)
  json_dumps : value -> string;
  (** [repr], which is what [str] gives for a value that is not a [str] *)
  repr : value -> string
}.

Section WithEnv.
Variable env : Env.

(** [str(v)]. *)
Definition str (v : value) : string :=
  match v with
  | VStr s => s
  | _ => repr env v
  end.

(** [json.loads(msg)]: a message that is not text is a [TypeError]. *)
Definition loads (msg : value) : Res value :=
  match msg with
  | VStr s => json_loads env s
  | _ => Raise (Exc "TypeError"
                    ("the JSON object must be str, bytes or bytearray, not "
                     ++ type_name msg))
  end.

Definition of_res {A : Type} (r : Res A) : M World A :=
  fun w => (r, w).

Definition now_iso : M World string :=
  fun w => let t := utcnow_isoformat env w in (Ok t, ENow t :: w).

Definition put_item (item : Item) : M World unit :=
  fun w =>
    let f := put_item_failure env w item in
    (match f with None => Ok tt | Some e => Raise e end,
     EPutItem item f :: w).

(** The loop of [_extract_url_from_dimensions]. *)
Fixpoint extract_loop (ds : list value) : M World value :=
  match ds with
  | [] => ret VNone
  | d :: rest =>
      n <- get d "name" VNone ;;
      hit <- (if eq_str n "URL" then ret true
              else n' <- get d "Name" VNone ;; ret (eq_str n' "URL")) ;;
      if (hit : bool)
      then v <- get d "value" VNone ;;
           if truthy v then ret v else get d "Value" VNone
      else extract_loop rest
  end.

(** [_extract_url_from_dimensions(dims)]. *)
Definition _extract_url_from_dimensions (dims : value) : M World value :=
  ds <- iter (or_ dims (VList [])) ;;
  extract_loop ds.

(** The [try]/[except] at the head of the loop body: the value of [alarm]
    after it. *)
Definition parse_alarm (record : value) : M World value :=
  try_except
    (sns <- getitem record "Sns" ;;
     msg <- getitem sns "Message" ;;
     of_res (loads msg))
    (fun _ =>
       sns <- get record "Sns" (VDict []) ;;
       m <- get sns "Message" (VStr "") ;;
       ret (VDict [("RawMessage", m)])).

(** The dict display [item = {...}], entry by entry. *)
Definition build_item (alarm : value) (now : string) : M World Item :=
  an <- get alarm "AlarmName" (VStr "UnknownAlarm") ;;
  nsv <- get alarm "NewStateValue" (VStr "UNKNOWN") ;;
  nsr <- get alarm "NewStateReason" (VStr "") ;;
  t1 <- get alarm "Trigger" (VDict []) ;;
  mn <- get t1 "MetricName" (VStr "Unknown") ;;
  t2 <- get alarm "Trigger" (VDict []) ;;
  ns <- get t2 "Namespace" (VStr "") ;;
  t3 <- get alarm "Trigger" (VDict []) ;;
  dims <- get t3 "Dimensions" (VList []) ;;
  u <- _extract_url_from_dimensions dims ;;
  ret {| AlarmName := str an;
         Timestamp := now;
         NewStateValue := str nsv;
         NewStateReason := slice_to 1000 (str nsr);
         MetricName := str mn;
         Namespace := str ns;
         URL := u;
         Raw := slice_to 3500 (json_dumps env alarm) |}.

(** One turn of [for record in event.get("Records", [])]. *)
Definition handler_body (record : value) : M World unit :=
  alarm <- parse_alarm record ;;
  now <- now_iso ;;
  item <- build_item alarm now ;;
  put_item item.

Fixpoint handler_loop (records : list value) : M World unit :=
  match records with
  | [] => ret tt
  | record :: rest => handler_body record ;;; handler_loop rest
  end.

(** [handler(event, context)]; [context] is not used. *)
Definition handler (event : value) : M World Response :=
  rs <- get event "Records" (VList []) ;;
  records <- iter rs ;;
  handler_loop records ;;;
  ret {| statusCode := 200 |}.

End WithEnv.

(** *** Shapes of events, for the statements below *)

(** The dimension [d] is the one named URL, under either spelling of the
    key the code looks up. *)
Definition names_url (d : value) : bool :=
  match d with
  | VDict dd =>
      eq_str (get_or "name" dd VNone) "URL"
      || eq_str (get_or "Name" dd VNone) "URL"
  | _ => false
  end.

Definition other_dimension (d : value) : bool :=
  is_dict d && negb (names_url d).

(** [Dimensions] is a list of objects. *)
Definition dims_ok (dims : value) : bool :=
  match dims with
  | VList ds => forallb is_dict ds
  | _ => false
  end.

(** [Trigger] is an object whose [Dimensions], when present, is a list of
    objects. *)
Definition trigger_ok (t : value) : bool :=
  match t with
  | VDict td =>
      match lookup "Dimensions" td with
      | Some dims => dims_ok dims
      | None => true
      end
  | _ => false
  end.

(** The notification is an object whose [Trigger], when present, has the
    shape above. *)
Definition alarm_ok (alarm : value) : bool :=
  match alarm with
  | VDict a =>
      match lookup "Trigger" a with
      | Some t => trigger_ok t
      | None => true
      end
  | _ => false
  end.

(** The record is an object; its [Sns], when present, is an object; its
    [Message], when present, either is not parseable or parses to a
    notification of the shape above. *)
Definition record_ok (env : Env) (record : value) : bool :=
  match record with
  | VDict r =>
      match lookup "Sns" r with
      | Some (VDict sns) =>
          match lookup "Message" sns with
          | Some msg =>
              match loads env msg with
              | Ok alarm => alarm_ok alarm
              | Raise _ => true
              end
          | None => true
          end
      | Some _ => false
      | None => true
      end
  | _ => false
  end.

(** The records [for record in event.get("Records", [])] goes through,
    when it goes through any. *)
Definition records_of (event : value) : list value :=
  match event with
  | VDict d =>
      match fst (@iter unit (get_or "Records" d (VList [])) tt) with
      | Ok l => l
      | Raise _ => []
      end
  | _ => []
  end.

(** The record carries the message [msg] under [Sns.Message]. *)
Definition message_of (record : value) : option value :=
  match record with
  | VDict r =>
      match lookup "Sns" r with
      | Some (VDict sns) => lookup "Message" sns
      | _ => None
      end
  | _ => None
  end.

(** The record whose message could not be parsed is logged as this item. *)
Definition degraded_item (env : Env) (now : string) (msg : value) : Item :=
  {| AlarmName := "UnknownAlarm";
     Timestamp := now;
     NewStateValue := "UNKNOWN";
     NewStateReason := "";
     MetricName := "Unknown";
     Namespace := "";
     URL := VNone;
     Raw := slice_to 3500 (json_dumps env (VDict [("RawMessage", msg)])) |}.

(** The record carries a message that [json.loads] does not parse. *)
Definition unparseable (env : Env) (record : value) : Prop :=
  exists msg e, message_of record = Some msg /\ loads env msg = Raise e.

(** [item] is the degraded item of [record]. *)
Definition degraded_from (env : Env) (record : value) (item : Item) : Prop :=
  exists now msg,
    message_of record = Some msg /\ item = degraded_item env now msg.

(** The URL the specification asks for, over a list of dimensions: the value
    of the first dimension named URL, null when there is none.  It is
    compared with [_extract_url_from_dimensions] below. *)
Definition spec_url_of_dimensions (ds : list value) : value :=
  match find names_url ds with
  | Some (VDict dd) => or_ (get_or "value" dd VNone) (get_or "Value" dd VNone)
  | _ => VNone
  end.

(** The items the store accepted, the earliest first. *)
Fixpoint written (w : World) : list Item :=
  match w with
  | [] => []
  | EPutItem item None :: w' => written w' ++ [item]
  | _ :: w' => written w'
  end.

(** The number of store writes that raised. *)
Fixpoint store_failures (w : World) : nat :=
  match w with
  | [] => 0
  | EPutItem _ (Some _) :: w' => S (store_failures w')
  | _ :: w' => store_failures w'
  end.

(** Every store write of the world comes right after a reading of the clock
    and its item carries that reading as its timestamp. *)
Fixpoint well_stamped (w : World) : Prop :=
  match w with
  | [] => True
  | EPutItem item _ :: w' =>
      match w' with
      | ENow t :: _ => Timestamp item = t
      | _ => False
      end /\ well_stamped w'
  | ENow _ :: w' => well_stamped w'
  end.

(** The number of store writes that were tried. *)
Fixpoint store_writes (w : World) : nat :=
  match w with
  | [] => 0
  | EPutItem _ _ :: w' => S (store_writes w')
  | _ :: w' => store_writes w'
  end.

End AlarmLogger.

(* ================================================================== *)
(** * devops_canary/devops_canary_stack.py: the alarms of step 7 *)
(* ================================================================== *)

Module Stack.

Definition NAMESPACE : string := "WebsiteHealth".

(** [LATENCY_THRESHOLD_MS = 1500]; the alarm construct takes its
    threshold as a number, which the metric backend compares as a double. *)
Definition LATENCY_THRESHOLD_MS : float := 1500%float.

(** The members of [cloudwatch.ComparisonOperator] and of
    [cloudwatch.TreatMissingData] that the stack uses. *)
Inductive ComparisonOperator : Set :=
| LESS_THAN_THRESHOLD
| GREATER_THAN_THRESHOLD.

Inductive TreatMissingData : Set :=
| BREACHING
| NOT_BREACHING.

(** [cloudwatch.Metric(namespace=, metric_name=, dimensions_map=,
    period=Duration.minutes(_), statistic=)]. *)
Record Metric : Set := mkMetric {
  namespace : string;
  metric_name : string;
  dimensions_map : list (string * string);
  period_minutes : Z;
  statistic : string
}.

(** The keyword arguments of [cloudwatch.Alarm(...)]. *)
Record Alarm : Set := mkAlarm {
  metric : Metric;
  threshold : float;
  evaluation_periods : nat;
  datapoints_to_alarm : nat;
  comparison_operator : ComparisonOperator;
  treat_missing_data : TreatMissingData;
  alarm_description : string
}.

Definition av_metric (url : string) : Metric :=
  {| namespace := NAMESPACE;
     metric_name := "Availability";
     dimensions_map := [("URL", url)];
     period_minutes := 5;
     statistic := "Average" |}.

Definition av_alarm (url : string) : Alarm :=
  {| metric := av_metric url;
     threshold := 0.99%float;
     evaluation_periods := 1;
     datapoints_to_alarm := 1;
     comparison_operator := LESS_THAN_THRESHOLD;
     treat_missing_data := BREACHING;
     alarm_description := "Availability below 1 for " ++ url |}.

Definition lt_metric (url : string) : Metric :=
  {| namespace := NAMESPACE;
     metric_name := "Latency";
     dimensions_map := [("URL", url)];
     period_minutes := 5;
     statistic := "Average" |}.

Definition lt_alarm (url : string) : Alarm :=
  {| metric := lt_metric url;
     threshold := LATENCY_THRESHOLD_MS;
     evaluation_periods := 1;
     datapoints_to_alarm := 1;
     comparison_operator := GREATER_THAN_THRESHOLD;
     treat_missing_data := NOT_BREACHING;
     alarm_description := "Latency above 1500 ms for " ++ url |}.

(** A character of the class [[A-Za-z0-9]]. *)
Definition is_alnum (c : ascii) : bool :=
  let n := nat_of_ascii c in
  (Nat.leb 65 n && Nat.leb n 90)
  || (Nat.leb 97 n && Nat.leb n 122)
  || (Nat.leb 48 n && Nat.leb n 57).

(** [re.sub(r"[^A-Za-z0-9]", "", url)]. *)
Fixpoint strip_non_alnum (url : string) : string :=
  match url with
  | EmptyString => EmptyString
  | String c rest =>
      if is_alnum c then String c (strip_non_alnum rest)
      else strip_non_alnum rest
  end.

(** Every character of [s] is of the class [[A-Za-z0-9]]. *)
Fixpoint all_alnum (s : string) : bool :=
  match s with
  | EmptyString => true
  | String c rest => is_alnum c && all_alnum rest
  end.

(** [_to_id_fragment(url)]: [s[:60] or "URL"]. *)
Definition _to_id_fragment (url : string) : string :=
  let s := strip_non_alnum url in
  let head := Py.slice_to 60 s in
  if String.eqb head "" then "URL" else head.

(** The alarms of step 7 for one URL, each with the id of its construct:
    [f"AvailAlarm{frag}"] and [f"LatencyAlarm{frag}"]. *)
Definition url_alarms (url : string) : list (string * Alarm) :=
  let frag := _to_id_fragment url in
  [ (("AvailAlarm" ++ frag)%string, av_alarm url);
    (("LatencyAlarm" ++ frag)%string, lt_alarm url) ].

(** [for url in sites: ...] of step 7. *)
Definition alarms (sites : list string) : list (string * Alarm) :=
  flat_map url_alarms sites.

(** [cloudwatch.GraphWidget(title=, left=, width=)]. *)
Record GraphWidget : Set := mkGraphWidget {
  title : string;
  widget_left : list Metric;
  width : Z
}.

(** The metrics [m_av] and [m_lt] of step 6. *)
Definition m_av (url : string) : Metric :=
  {| namespace := NAMESPACE;
     metric_name := "Availability";
     dimensions_map := [("URL", url)];
     period_minutes := 5;
     statistic := "Average" |}.

Definition m_lt (url : string) : Metric :=
  {| namespace := NAMESPACE;
     metric_name := "Latency";
     dimensions_map := [("URL", url)];
     period_minutes := 5;
     statistic := "Average" |}.

(** The widgets step 6 adds to the dashboard, in order: [if avail_metrics:]
    and [if latency_metrics:] guard the two calls of [add_widgets]. *)
Definition dashboard_widgets (sites : list string) : list GraphWidget :=
  let avail_metrics := map m_av sites in
  let latency_metrics := map m_lt sites in
  (match avail_metrics with
   | [] => []
   | _ => [ {| title := "Website Availability (per URL)";
               widget_left := avail_metrics;
               width := 24 |} ]
   end)
  ++ (match latency_metrics with
      | [] => []
      | _ => [ {| title := "Website Latency (ms per URL)";
                  widget_left := latency_metrics;
                  width := 24 |} ]
      end).

(** The ids of the constructs that [__init__] creates in the scope of the
    stack itself, in the order of their creation. *)
Definition construct_ids (sites : list string) : list string :=
  ["CrawlerLambda"; "FiveMinuteSchedule"; "AvailabilityTopic"; "LatencyTopic";
   "WebsiteAlarmLog"; "AlarmLogger"; "WebsiteHealthDashboard"]
  ++ map fst (alarms sites)
  ++ ["DashboardName"; "AvailabilityTopicArn"; "LatencyTopicArn";
      "AlarmLogTableName"].

End Stack.

(* ================================================================== *)
(** * The alarm evaluator of the metric backend *)
(* ================================================================== *)

Module Evaluator.
Import Stack.

Inductive AlarmState : Set := OK | ALARM | INSUFFICIENT_DATA.

(** One period bucket of the aggregated series: [Some v] is the
    AggregatedDatapoint of the period, [None] a period in which no sample
    arrived.  A history lists the buckets, the period just elapsed first. *)
Definition Bucket : Set := option float.

(** Modelled from the spec: the comparison of step 3 of section 4.3, which
    the external metric backend performs and src/ only configures: a
    datapoint breaches when it is strictly on the alarm side of the
    threshold. *)
Definition compare (op : ComparisonOperator) (v thr : float) : bool :=
  match op with
  | LESS_THAN_THRESHOLD => PrimFloat.ltb v thr
  | GREATER_THAN_THRESHOLD => PrimFloat.ltb thr v
  end.

(** Modelled from the spec: steps 2 and 3 of section 4.3 for one period,
    absent from src/: an existing datapoint is compared against the
    threshold, a missing one is judged by the alarm's missing-data
    policy. *)
Definition breaching (a : Alarm) (b : Bucket) : bool :=
  match b with
  | Some v => compare (comparison_operator a) v (threshold a)
  | None =>
      match treat_missing_data a with
      | BREACHING => true
      | NOT_BREACHING => false
      end
  end.

(** Modelled from the spec: the evaluation tick of section 4.3 (steps 1
    to 4), absent from src/: the alarm looks at its last
    [evaluation_periods] buckets and is in ALARM when at least
    [datapoints_to_alarm] of them breach, in OK otherwise.  The previous
    state is an argument because the tick is a transition of the state
    machine; with the policies the stack uses it does not influence the
    outcome. *)
Definition tick (a : Alarm) (prev : AlarmState) (history : list Bucket)
  : AlarmState :=
  let window := firstn (evaluation_periods a) history in
  if Nat.leb (datapoints_to_alarm a) (List.length (filter (breaching a) window))
  then ALARM else OK.

End Evaluator.

(* ================================================================== *)
(** * Sample runs *)
(* ================================================================== *)

Module Samples.
Import Py.

(** A clock that reads 100.0 s before a request and 100.25 s after it. *)
Definition sample_clock (w : Crawler.World) : float :=
  match w with
  | Crawler.EUrlopen _ _ _ :: _ => 100.25%float
  | _ => 100%float
  end.

(** Three targets; the second one times out; the sink accepts every call. *)
Definition one_target_down : Crawler.Env :=
  {| Crawler.sites_json :=
       ["https://example.com"; "https://down.example"; "https://example.org"];
     Crawler.request_error := fun _ => None;
     Crawler.clock := sample_clock;
     Crawler.urlopen_result := fun _ req _ =>
       if String.eqb (Crawler.full_url req) "https://down.example"
       then Raise (Exc "URLError" "<urlopen error timed out>")
       else Ok 200%Z;
     Crawler.put_metric_data_failure := fun _ _ _ => None |}.

(** Two healthy targets; the sink refuses the first publish call. *)
Definition first_publish_fails : Crawler.Env :=
  {| Crawler.sites_json := ["https://a.example"; "https://b.example"];
     Crawler.request_error := fun _ => None;
     Crawler.clock := sample_clock;
     Crawler.urlopen_result := fun _ _ _ => Ok 200%Z;
     Crawler.put_metric_data_failure := fun w _ _ =>
       match Crawler.publish_calls w with
       | [] => Some (Exc "ClientError" "Throttling")
       | _ => None
       end |}.

(** The double quote. *)
Definition dq : string := String (ascii_of_nat 34) EmptyString.

Definition decimal (z : Z) : string :=
  DecimalString.NilZero.string_of_int (Z.to_int z).

(** A printer for the values of the sample events, which hold no float (one
    would be shown as 0.0) and no character that needs escaping:
    [json.dumps] and [repr] differ on such values by the spelling of the
    constants and by the quote. *)
Fixpoint show (none yes no quote : string) (v : value) : string :=
  let fix items (l : list value) : string :=
    match l with
    | [] => ""
    | [x] => show none yes no quote x
    | x :: l' => (show none yes no quote x ++ ", " ++ items l')%string
    end in
  let fix fields (d : list (string * value)) : string :=
    match d with
    | [] => ""
    | [(k, x)] =>
        (quote ++ k ++ quote ++ ": " ++ show none yes no quote x)%string
    | (k, x) :: d' =>
        (quote ++ k ++ quote ++ ": " ++ show none yes no quote x
         ++ ", " ++ fields d')%string
    end in
  match v with
  | VNone => none
  | VBool b => if b then yes else no
  | VInt z => decimal z
  | VFloat _ => "0.0"
  | VStr s => (quote ++ s ++ quote)%string
  | VList l => ("[" ++ items l ++ "]")%string
  | VDict d => ("{" ++ fields d ++ "}")%string
  end.

(** An SNS record with the message [msg]. *)
Definition sns_record (msg : string) : value :=
  VDict [("EventSource", VStr "aws:sns");
         ("Sns", VDict [("Type", VStr "Notification");
                        ("Message", VStr msg)])].

(** An event with the records [rs]. *)
Definition sns_event (rs : list value) : value :=
  VDict [("Records", VList rs)].

(** A notification as [json.loads] gives it for an alarm of the stack whose
    dimension is spelled with the keys [kn] and [kv]. *)
Definition alarm_with_dimension (kn kv : string) : value :=
  VDict [("AlarmName", VStr "AvailAlarmhttpsexamplecom");
         ("NewStateValue", VStr "ALARM");
         ("NewStateReason", VStr "Threshold Crossed");
         ("Trigger",
          VDict [("MetricName", VStr "Availability");
                 ("Namespace", VStr "WebsiteHealth");
                 ("Dimensions",
                  VList [VDict [(kv, VStr "https://example.com");
                                (kn, VStr "URL")]])])].

(** The JSON text of that notification. *)
Definition notification_text (kn kv : string) : string :=
  show "null" "true" "false" dq (alarm_with_dimension kn kv).

(** [json.loads] on the message texts of the sample events: the empty
    array, the empty object, [null] and the two notification texts are JSON,
    the other text used below is not. *)
Definition sample_loads (s : string) : Res value :=
  if String.eqb s "[]" then Ok (VList [])
  else if String.eqb s "{}" then Ok (VDict [])
  else if String.eqb s "null" then Ok VNone
  else if String.eqb s (notification_text "name" "value")
  then Ok (alarm_with_dimension "name" "value")
  else if String.eqb s (notification_text "NAME" "VALUE")
  then Ok (alarm_with_dimension "NAME" "VALUE")
  else Raise (Exc "JSONDecodeError" "Expecting value: line 1 column 1 (char 0)").

(** A store that accepts every write. *)
Definition store_up : AlarmLogger.Env :=
  {| AlarmLogger.utcnow_isoformat := fun _ => "2025-07-01T00:00:00+00:00";
     AlarmLogger.put_item_failure := fun _ _ => None;
     AlarmLogger.json_loads := sample_loads;
     AlarmLogger.json_dumps := show "null" "true" "false" dq;
     AlarmLogger.repr := show "None" "True" "False" "'" |}.

(** A store that refuses every write. *)
Definition store_down : AlarmLogger.Env :=
  {| AlarmLogger.utcnow_isoformat := fun _ => "2025-07-01T00:00:00+00:00";
     AlarmLogger.put_item_failure := fun _ _ =>
       Some (Exc "ClientError" "ProvisionedThroughputExceededException");
     AlarmLogger.json_loads := sample_loads;
     AlarmLogger.json_dumps := show "null" "true" "false" dq;
     AlarmLogger.repr := show "None" "True" "False" "'" |}.

(** A sink that refuses its second call and accepts the others. *)
Definition refuse_second_call (w : Crawler.World) (ns : string)
    (data : list Crawler.MetricDatum) : option Exn :=
  match Crawler.publish_calls w with
  | [_] => Some (Exc "ClientError" "Throttling")
  | _ => None
  end.

(** Three targets; the first one times out, and the sink refuses the
    publish call of the second. *)
Definition second_publish_fails : Crawler.Env :=
  {| Crawler.sites_json :=
       ["https://down.example"; "https://a.example"; "https://b.example"];
     Crawler.request_error := fun _ => None;
     Crawler.clock := sample_clock;
     Crawler.urlopen_result := fun _ req _ =>
       if String.eqb (Crawler.full_url req) "https://down.example"
       then Raise (Exc "URLError" "<urlopen error timed out>")
       else Ok 200%Z;
     Crawler.put_metric_data_failure := refuse_second_call |}.


(** [n] times the letter x. *)
Fixpoint xs (n : nat) : string :=
  match n with
  | O => EmptyString
  | S k => String "x" (xs k)
  end.

(** A notification whose reason has 4000 characters, and its JSON text. *)
Definition long_alarm : value :=
  VDict [("AlarmName", VStr "LatencyAlarmhttpsexamplecom");
         ("NewStateValue", VStr "ALARM");
         ("NewStateReason", VStr (xs 4000))].

Definition long_text : string :=
  show "null" "true" "false" dq long_alarm.

(** A store that accepts every write, with a [json.loads] that also knows
    the text of the long notification. *)
Definition store_up_long : AlarmLogger.Env :=
  {| AlarmLogger.utcnow_isoformat := fun _ => "2025-07-01T00:00:00+00:00";
     AlarmLogger.put_item_failure := fun _ _ => None;
     AlarmLogger.json_loads := fun s =>
       if String.eqb s long_text then Ok long_alarm else sample_loads s;
     AlarmLogger.json_dumps := show "null" "true" "false" dq;
     AlarmLogger.repr := show "None" "True" "False" "'" |}.

(** The item the long notification is stored as. *)
Definition long_item : AlarmLogger.Item :=
  {| AlarmLogger.AlarmName := "LatencyAlarmhttpsexamplecom";
     AlarmLogger.Timestamp := "2025-07-01T00:00:00+00:00";
     AlarmLogger.NewStateValue := "ALARM";
     AlarmLogger.NewStateReason := xs 1000;
     AlarmLogger.MetricName := "Unknown";
     AlarmLogger.Namespace := "";
     AlarmLogger.URL := VNone;
     AlarmLogger.Raw := substring 0 3500 long_text |}.

(** One target whose URL [urllib.request.Request] rejects. *)
Definition malformed_target : Crawler.Env :=
  {| Crawler.sites_json := ["example.com"];
     Crawler.request_error := fun u =>
       Some (Exc "ValueError" ("unknown url type: '" ++ u ++ "'")%string);
     Crawler.clock := sample_clock;
     Crawler.urlopen_result := fun _ _ _ => Ok 200%Z;
     Crawler.put_metric_data_failure := fun _ _ _ => None |}.

(** No target at all. *)
Definition no_target : Crawler.Env :=
  {| Crawler.sites_json := [];
     Crawler.request_error := fun _ => None;
     Crawler.clock := sample_clock;
     Crawler.urlopen_result := fun _ _ _ => Ok 200%Z;
     Crawler.put_metric_data_failure := fun _ _ _ => None |}.

End Samples.

(* ================================================================== *)
(** * Properties *)
(* ================================================================== *)

Import Stack Evaluator.

(** C2. The missing-data policy differs by alarm kind: when the period just
    elapsed has no aggregated datapoint, the Availability alarm of a target
    goes to (or stays in) ALARM and the Latency alarm of that target goes to
    (or stays in) OK, whatever the previous state and the older periods. *)
Theorem missing_data_policy_asymmetric :
  forall (url : string) (prev : AlarmState) (older : list Bucket),
    tick (av_alarm url) prev (None :: older) = ALARM /\
    tick (lt_alarm url) prev (None :: older) = OK /\
    tick (lt_alarm url) prev (None :: older) <> ALARM.
Proof.
  intros url prev older.
  assert (Hlt : tick (lt_alarm url) prev (None :: older) = OK) by reflexivity.
  split; [reflexivity | split; [exact Hlt | rewrite Hlt; discriminate]].
Qed.

(** C3. Both comparators are strict and one breaching datapoint out of one
    evaluation period decides: for an aggregated Availability datapoint [v]
    the new state is ALARM iff [v < 0.99], for an aggregated Latency
    datapoint [v] it is ALARM iff [v > 1500]; 0.99 and 1500 give OK,
    0.989999 and 1501 give ALARM. *)
Theorem comparators_strict_one_of_one :
  forall (url : string) (prev : AlarmState) (older : list Bucket),
    (evaluation_periods (av_alarm url) = 1%nat /\
     datapoints_to_alarm (av_alarm url) = 1%nat /\
     evaluation_periods (lt_alarm url) = 1%nat /\
     datapoints_to_alarm (lt_alarm url) = 1%nat) /\
    (forall v : float,
        tick (av_alarm url) prev (Some v :: older) = ALARM
        <-> PrimFloat.ltb v 0.99%float = true) /\
    (forall v : float,
        tick (av_alarm url) prev (Some v :: older) = OK
        <-> PrimFloat.ltb v 0.99%float = false) /\
    (forall v : float,
        tick (lt_alarm url) prev (Some v :: older) = ALARM
        <-> PrimFloat.ltb LATENCY_THRESHOLD_MS v = true) /\
    (forall v : float,
        tick (lt_alarm url) prev (Some v :: older) = OK
        <-> PrimFloat.ltb LATENCY_THRESHOLD_MS v = false) /\
    LATENCY_THRESHOLD_MS = 1500%float /\
    tick (av_alarm url) prev (Some 0.99%float :: older) = OK /\
    tick (av_alarm url) prev (Some 0.989999%float :: older) = ALARM /\
    tick (lt_alarm url) prev (Some LATENCY_THRESHOLD_MS :: older) = OK /\
    tick (lt_alarm url) prev
         (Some (LATENCY_THRESHOLD_MS + 1)%float :: older) = ALARM.
Proof.
  intros url prev older.
  split; [repeat split |].
  repeat split;
    try (unfold tick; cbn -[PrimFloat.ltb];
         match goal with
         | |- context [PrimFloat.ltb ?x ?y] =>
             destruct (PrimFloat.ltb x y); cbn; congruence
         end).
Qed.


(* ------------------------------------------------------------------ *)
(** ** The prober *)
(* ------------------------------------------------------------------ *)

Lemma publish_calls_app :
  forall w1 w2 : Crawler.World,
    Crawler.publish_calls (w1 ++ w2)
    = Crawler.publish_calls w2 ++ Crawler.publish_calls w1.
Proof.
  induction w1 as [| ev w1 IH]; intros w2; simpl.
  - now rewrite app_nil_r.
  - destruct ev; rewrite ?IH, ?app_assoc; reflexivity.
Qed.

(** [_http_get] publishes nothing. *)
Lemma http_get_publish_calls :
  forall env u t w,
    Crawler.publish_calls (snd (Crawler._http_get env u t w))
    = Crawler.publish_calls w.
Proof.
  intros env u t w.
  unfold Crawler._http_get, Crawler.mk_request, Crawler.urlopen,
    Crawler.time, Py.bind, Py.ret, Py.raise.
  destruct (Crawler.request_error env u); simpl; [reflexivity |].
  match goal with
  | |- context [Crawler.urlopen_result ?e ?w' ?r ?t'] =>
      destruct (Crawler.urlopen_result e w' r t')
  end; reflexivity.
Qed.

(** The two ways out of the [try]/[except]. *)
Lemma probe_cases :
  forall env u w,
    match Crawler._http_get env u 10 w with
    | (Py.Ok (code, latency), w1) =>
        Crawler.probe env u w
        = (Py.Ok (if Z.eqb code 200 then 1%Z else 0%Z, latency), w1)
    | (Py.Raise e, w1) =>
        Crawler.probe env u w
        = (Py.Ok (0%Z, 0%float),
           Crawler.EPrint ("[ERROR] " ++ u ++ ": " ++ Py.str_of_exn e) :: w1)
    end.
Proof.
  intros env u w.
  unfold Crawler.probe, Py.try_except, Py.bind.
  destruct (Crawler._http_get env u 10 w) as [[[code latency] | e] w1];
    reflexivity.
Qed.

(** The probe never raises and publishes nothing. *)
Lemma probe_returns :
  forall env u w,
    exists st lat w1,
      Crawler.probe env u w = (Py.Ok (st, lat), w1) /\
      Crawler.publish_calls w1 = Crawler.publish_calls w.
Proof.
  intros env u w.
  pose proof (probe_cases env u w) as Hc.
  pose proof (http_get_publish_calls env u 10 w) as Hp.
  destruct (Crawler._http_get env u 10 w) as [[[code latency] | e] w1];
    simpl in Hp; do 3 eexists; (split; [exact Hc | simpl; exact Hp]).
Qed.

(** One turn of the loop: the probe, then one publish call whose outcome is
    the outcome of the turn. *)
Lemma handler_body_spec :
  forall env u w,
    exists st lat w1,
      Crawler.probe env u w = (Py.Ok (st, lat), w1) /\
      Crawler.publish_calls w1 = Crawler.publish_calls w /\
      let data := Crawler.metric_data u st lat in
      let f := Crawler.put_metric_data_failure env w1 Crawler.NAMESPACE data in
      Crawler.handler_body env u w
      = (match f with
         | None => Py.Ok (Crawler.mkResult u st lat)
         | Some e => Py.Raise e
         end,
         Crawler.EPutMetricData Crawler.NAMESPACE data f :: w1).
Proof.
  intros env u w.
  destruct (probe_returns env u w) as (st & lat & w1 & Hp & Hc).
  exists st, lat, w1. split; [exact Hp | split; [exact Hc |]].
  cbv zeta. unfold Crawler.handler_body, Py.bind. rewrite Hp.
  unfold Crawler.put_metric_data. simpl.
  destruct (Crawler.put_metric_data_failure env w1 Crawler.NAMESPACE
              (Crawler.metric_data u st lat)); reflexivity.
Qed.

(** What a loop that returns has done. *)
Lemma handler_loop_ok :
  forall env sites acc w out w',
    Crawler.handler_loop env sites acc w = (Py.Ok out, w') ->
    exists rs,
      out = acc ++ rs /\
      map Crawler.url rs = sites /\
      Crawler.publish_calls w'
      = Crawler.publish_calls w ++ map Crawler.samples_of rs.
Proof.
  intros env sites.
  induction sites as [| u rest IH]; intros acc w out w' H; simpl in H.
  - inversion H; subst. exists []. now rewrite !app_nil_r.
  - unfold Py.bind in H.
    destruct (handler_body_spec env u w) as (st & lat & w1 & _ & Hc & Hb).
    cbv zeta in Hb. rewrite Hb in H.
    destruct (Crawler.put_metric_data_failure env w1 Crawler.NAMESPACE
                (Crawler.metric_data u st lat)) as [e |]; [discriminate |].
    apply IH in H. destruct H as (rs & Hout & Hurl & Hpub).
    exists (Crawler.mkResult u st lat :: rs).
    split; [| split].
    + rewrite Hout, <- app_assoc. reflexivity.
    + simpl. now rewrite Hurl.
    + rewrite Hpub. simpl. rewrite Hc, <- app_assoc. reflexivity.
Qed.


(** A turn that raises ends the loop there. *)
Lemma handler_loop_aborts :
  forall env pre u post acc w out w1 e,
    Crawler.handler_loop env pre acc w = (Py.Ok out, w1) ->
    fst (Crawler.handler_body env u w1) = Py.Raise e ->
    Crawler.handler_loop env (pre ++ u :: post) acc w
    = (Py.Raise e, snd (Crawler.handler_body env u w1)).
Proof.
  intros env pre.
  induction pre as [| p pre IH]; intros u post acc w out w1 e Hpre Hu;
    simpl in *.
  - inversion Hpre; subst. unfold Py.bind.
    destruct (Crawler.handler_body env u w1) as [[r | e'] w2]; simpl in *.
    + discriminate.
    + congruence.
  - unfold Py.bind in *.
    destruct (Crawler.handler_body env p w) as [[r | e'] w2].
    + eapply IH; eassumption.
    + discriminate.
Qed.

(** C1 (as stated, refuted).  Two healthy targets and a sink that refuses
    the first publish call: the handler raises the sink's exception, prints
    nothing, and the second target is neither probed nor published, so the
    publish failure of one target did abort the rest of the batch. *)
Lemma publish_failure_aborts_example :
  let run := Crawler.handler Samples.first_publish_fails [] in
  Crawler.sites_json Samples.first_publish_fails
  = ["https://a.example"; "https://b.example"] /\
  fst run = Py.Raise (Py.Exc "ClientError" "Throttling") /\
  Crawler.probed (snd run) = ["https://a.example"] /\
  List.length (Crawler.publish_calls (snd run)) = 1%nat /\
  (forall line, ~ In (Crawler.EPrint line) (snd run)).
Proof.
  vm_compute.
  repeat split; try reflexivity.
  intros line H.
  repeat (destruct H as [H | H]; [discriminate H |]).
  exact H.
Qed.

(** C1 (amended).  A failure of the metric publish call for a target is not
    recovered by the handler: once the targets before it have been handled,
    if the turn of target [u] raises, then what raised is its single publish
    call, the same exception leaves the handler, nothing is printed after
    the failed call, and the publish calls of the run are those of the
    targets before [u] followed by the one of [u]; the targets after [u] are
    never reached.  Only a failure of the probe itself is recovered locally:
    when [_http_get] raises for a target, the probe prints the [ERROR] line
    and gives (0, 0.0), the turn publishes these, and when that publish call
    returns the loop goes on with the next target. *)
Theorem publish_failure_propagates :
  forall env pre u post w rs w1 e,
    Crawler.sites_json env = pre ++ u :: post ->
    Crawler.handler_loop env pre [] w = (Py.Ok rs, w1) ->
    fst (Crawler.handler_body env u w1) = Py.Raise e ->
    (exists st lat w2,
        Crawler.probe env u w1 = (Py.Ok (st, lat), w2) /\
        Crawler.handler env w
        = (Py.Raise e,
           Crawler.EPutMetricData Crawler.NAMESPACE
             (Crawler.metric_data u st lat) (Some e) :: w2) /\
        map Crawler.url rs = pre /\
        Crawler.publish_calls
          (Crawler.EPutMetricData Crawler.NAMESPACE
             (Crawler.metric_data u st lat) (Some e) :: w2)
        = Crawler.publish_calls w ++ map Crawler.samples_of rs
          ++ [Crawler.metric_data u st lat]) /\
    (forall u' rest acc w0,
        match Crawler._http_get env u' 10 w0 with
        | (Py.Raise e', w3) =>
            let line :=
              Crawler.EPrint ("[ERROR] " ++ u' ++ ": " ++ Py.str_of_exn e') in
            let data := Crawler.metric_data u' 0 0 in
            Crawler.probe env u' w0 = (Py.Ok (0%Z, 0%float), line :: w3) /\
            Crawler.handler_loop env (u' :: rest) acc w0
            = match Crawler.put_metric_data_failure env (line :: w3)
                      Crawler.NAMESPACE data with
              | None =>
                  Crawler.handler_loop env rest
                    (acc ++ [Crawler.mkResult u' 0 0])
                    (Crawler.EPutMetricData Crawler.NAMESPACE data None
                     :: line :: w3)
              | Some ex =>
                  (Py.Raise ex,
                   Crawler.EPutMetricData Crawler.NAMESPACE data (Some ex)
                   :: line :: w3)
              end
        | (Py.Ok _, _) => True
        end).
Proof.
  intros env pre u post w rs w1 e Hsites Hpre Hu. split.
  - destruct (handler_body_spec env u w1) as (st & lat & w2 & Hp & Hc & Hb).
    cbv zeta in Hb.
    pose proof (handler_loop_aborts env pre u post [] w rs w1 e Hpre Hu)
      as Hl.
    rewrite Hb in Hu, Hl. simpl in Hu, Hl.
    destruct (Crawler.put_metric_data_failure env w2 Crawler.NAMESPACE
                (Crawler.metric_data u st lat)) as [e' |] eqn:Hf;
      [| discriminate].
    assert (e' = e) by congruence. subst e'.
    apply handler_loop_ok in Hpre.
    destruct Hpre as (rs' & Hrs & Hurl & Hpub).
    simpl in Hrs. subst rs'.
    exists st, lat, w2. repeat split.
    + exact Hp.
    + unfold Crawler.handler, Py.bind. rewrite Hsites, Hl. reflexivity.
    + exact Hurl.
    + simpl. rewrite Hc, Hpub, <- app_assoc. reflexivity.
  - intros u' rest acc w0.
    pose proof (probe_cases env u' w0) as Hc.
    destruct (Crawler._http_get env u' 10 w0) as [[cl | e'] w3];
      [exact I |].
    cbv zeta. split; [exact Hc |].
    cbn [Crawler.handler_loop].
    unfold Py.bind at 1. unfold Crawler.handler_body, Py.bind at 1.
    rewrite Hc. unfold Py.bind, Crawler.put_metric_data. simpl.
    destruct (Crawler.put_metric_data_failure env _ Crawler.NAMESPACE
                (Crawler.metric_data u' 0 0)); reflexivity.
Qed.

Lemma publish_failure_propagates_witness :
  let env := Samples.second_publish_fails in
  let e := Py.Exc "ClientError" "Throttling" in
  let w1 :=
    snd (Crawler.handler_loop env ["https://down.example"] [] []) in
  let rs := [Crawler.mkResult "https://down.example" 0 0] in
  (exists st lat w2,
      Crawler.probe env "https://a.example" w1 = (Py.Ok (st, lat), w2) /\
      Crawler.handler env []
      = (Py.Raise e,
         Crawler.EPutMetricData Crawler.NAMESPACE
           (Crawler.metric_data "https://a.example" st lat) (Some e) :: w2) /\
      map Crawler.url rs = ["https://down.example"] /\
      Crawler.publish_calls
        (Crawler.EPutMetricData Crawler.NAMESPACE
           (Crawler.metric_data "https://a.example" st lat) (Some e) :: w2)
      = Crawler.publish_calls [] ++ map Crawler.samples_of rs
        ++ [Crawler.metric_data "https://a.example" st lat]) /\
  (forall u' rest acc w0,
      match Crawler._http_get env u' 10 w0 with
      | (Py.Raise e', w3) =>
          let line :=
            Crawler.EPrint ("[ERROR] " ++ u' ++ ": " ++ Py.str_of_exn e') in
          let data := Crawler.metric_data u' 0 0 in
          Crawler.probe env u' w0 = (Py.Ok (0%Z, 0%float), line :: w3) /\
          Crawler.handler_loop env (u' :: rest) acc w0
          = match Crawler.put_metric_data_failure env (line :: w3)
                    Crawler.NAMESPACE data with
            | None =>
                Crawler.handler_loop env rest
                  (acc ++ [Crawler.mkResult u' 0 0])
                  (Crawler.EPutMetricData Crawler.NAMESPACE data None
                   :: line :: w3)
            | Some ex =>
                (Py.Raise ex,
                 Crawler.EPutMetricData Crawler.NAMESPACE data (Some ex)
                 :: line :: w3)
            end
      | (Py.Ok _, _) => True
      end).
Proof.
  cbv zeta.
  apply (publish_failure_propagates Samples.second_publish_fails
           ["https://down.example"] "https://a.example"
           ["https://b.example"] []
           [Crawler.mkResult "https://down.example" 0 0]
           (snd (Crawler.handler_loop Samples.second_publish_fails
                   ["https://down.example"] [] []))
           (Py.Exc "ClientError" "Throttling")).
  - reflexivity.
  - vm_compute. reflexivity.
  - vm_compute. reflexivity.
Defined.

(** C4.  For a probed target the availability sample is 1 exactly when the
    request was made and answered with status code 200; with any other
    status code it is 0, and when building the request or opening the URL
    raises it is 0 and the latency sample is 0.0; both samples are in the
    publish call in every case. *)
Theorem availability_one_iff_status_200 :
  forall env u w,
    exists st lat w1 f,
      Crawler.probe env u w = (Py.Ok (st, lat), w1) /\
      snd (Crawler.handler_body env u w)
      = Crawler.EPutMetricData Crawler.NAMESPACE
          (Crawler.metric_data u st lat) f :: w1 /\
      map Crawler.MetricName (Crawler.metric_data u st lat)
      = ["Availability"; "Latency"] /\
      map Crawler.datum_Value (Crawler.metric_data u st lat)
      = [Crawler.NInt st; Crawler.NFloat lat] /\
      let req := Crawler.mkRequest u [("User-Agent", "Canary/1.0")] in
      let w0 := Crawler.ETime (Crawler.clock env w) :: w in
      match Crawler.request_error env u,
            Crawler.urlopen_result env w0 req 10 with
      | None, Py.Ok code =>
          (st = 1%Z <-> code = 200%Z) /\
          (st = 0%Z <-> code <> 200%Z) /\
          lat = ((Crawler.clock env
                    (Crawler.EUrlopen req 10 (Py.Ok code) :: w0)
                  - Crawler.clock env w) * 1000)%float
      | _, _ => st = 0%Z /\ lat = 0%float
      end.
Proof.
  intros env u w.
  destruct (handler_body_spec env u w) as (st & lat & w1 & Hp & _ & Hb).
  cbv zeta in Hb.
  exists st, lat, w1,
    (Crawler.put_metric_data_failure env w1 Crawler.NAMESPACE
       (Crawler.metric_data u st lat)).
  split; [exact Hp |].
  split; [rewrite Hb; reflexivity |].
  split; [reflexivity |].
  split; [reflexivity |].
  cbv zeta.
  pose proof (probe_cases env u w) as Hc.
  unfold Crawler._http_get, Crawler.mk_request, Crawler.urlopen,
    Crawler.time, Py.bind, Py.ret, Py.raise in Hc.
  destruct (Crawler.request_error env u) as [e |].
  - rewrite Hp in Hc. inversion Hc; subst. split; reflexivity.
  - simpl in Hc.
    destruct (Crawler.urlopen_result env
                (Crawler.ETime (Crawler.clock env w) :: w)
                (Crawler.mkRequest u [("User-Agent", "Canary/1.0")]) 10)
      as [code | e].
    + rewrite Hp in Hc. inversion Hc; subst.
      destruct (Z.eqb_spec code 200) as [Heq | Hne].
      * repeat split; intros; try reflexivity; try assumption; try congruence.
      * repeat split; intros; try reflexivity; try assumption;
          try congruence; try discriminate.
    + rewrite Hp in Hc. inversion Hc; subst. split; reflexivity.
Qed.





(* ------------------------------------------------------------------ *)
(** ** Slices *)
(* ------------------------------------------------------------------ *)

Lemma slice_to_length :
  forall n s, String.length (Py.slice_to n s) = Nat.min n (String.length s).
Proof.
  unfold Py.slice_to.
  induction n as [| n IH]; intros s.
  - destruct s; reflexivity.
  - destruct s as [| c s]; simpl; [reflexivity |].
    now rewrite IH.
Qed.

Lemma slice_to_prefix :
  forall n s, exists rest, s = (Py.slice_to n s ++ rest)%string.
Proof.
  unfold Py.slice_to.
  induction n as [| n IH]; intros s.
  - exists s. destruct s; reflexivity.
  - destruct s as [| c s]; simpl.
    + exists EmptyString. reflexivity.
    + destruct (IH s) as [rest Hrest]. exists rest. now rewrite <- Hrest.
Qed.

Lemma slice_to_short :
  forall n s, String.length s <= n -> Py.slice_to n s = s.
Proof.
  unfold Py.slice_to.
  induction n as [| n IH]; intros s Hlen.
  - destruct s; [reflexivity | simpl in Hlen; lia].
  - destruct s as [| c s]; simpl; [reflexivity |].
    rewrite IH; [reflexivity | simpl in Hlen; lia].
Qed.

(* ------------------------------------------------------------------ *)
(** ** Computations that touch nothing *)
(* ------------------------------------------------------------------ *)

Lemma silent_ret :
  forall (W A : Type) (a : A), Py.silent (@Py.ret W A a).
Proof. intros W A a w. reflexivity. Qed.

Lemma silent_raise :
  forall (W A : Type) (e : Py.Exn), Py.silent (@Py.raise W A e).
Proof. intros W A e w. reflexivity. Qed.

Lemma silent_bind :
  forall (W A B : Type) (m : Py.M W A) (k : A -> Py.M W B),
    Py.silent m -> (forall a, Py.silent (k a)) -> Py.silent (Py.bind m k).
Proof.
  intros W A B m k Hm Hk w. unfold Py.bind.
  specialize (Hm w). destruct (m w) as [[a | e] w1]; simpl in *; subst.
  - apply Hk.
  - reflexivity.
Qed.

Lemma silent_try_except :
  forall (W A : Type) (m : Py.M W A) (h : Py.Exn -> Py.M W A),
    Py.silent m -> (forall e, Py.silent (h e)) ->
    Py.silent (Py.try_except m h).
Proof.
  intros W A m h Hm Hh w. unfold Py.try_except.
  specialize (Hm w). destruct (m w) as [[a | e] w1]; simpl in *; subst.
  - reflexivity.
  - apply Hh.
Qed.

Lemma silent_get :
  forall (W : Type) v k d, Py.silent (@Py.get W v k d).
Proof.
  intros W v k d w.
  destruct v; try reflexivity.
  simpl. destruct (Py.lookup k d0); reflexivity.
Qed.

Lemma silent_getitem :
  forall (W : Type) v k, Py.silent (@Py.getitem W v k).
Proof.
  intros W v k w.
  destruct v; try reflexivity.
  simpl. destruct (Py.lookup k d); reflexivity.
Qed.

Lemma silent_iter :
  forall (W : Type) v, Py.silent (@Py.iter W v).
Proof. intros W v w. destruct v; reflexivity. Qed.

Lemma silent_of_res :
  forall (A : Type) (r : Py.Res A), Py.silent (AlarmLogger.of_res r).
Proof. intros A r w. reflexivity. Qed.

Create HintDb silent.

#[local] Hint Resolve silent_ret silent_raise silent_get silent_getitem
  silent_iter silent_of_res : silent.

Ltac silent_steps :=
  repeat first
    [ apply silent_bind; [| intros ?]
    | apply silent_try_except; [| intros ?]
    | solve [auto with silent]
    | match goal with
      | |- Py.silent (if ?b then _ else _) => destruct b
      end ].

Lemma silent_extract_loop :
  forall ds, Py.silent (AlarmLogger.extract_loop ds).
Proof.
  induction ds as [| d rest IH]; simpl.
  - apply silent_ret.
  - silent_steps.
Qed.

Lemma silent_extract_url :
  forall dims, Py.silent (AlarmLogger._extract_url_from_dimensions dims).
Proof.
  intros dims. unfold AlarmLogger._extract_url_from_dimensions.
  silent_steps. apply silent_extract_loop.
Qed.

Lemma silent_parse_alarm :
  forall env record, Py.silent (AlarmLogger.parse_alarm env record).
Proof.
  intros env record. unfold AlarmLogger.parse_alarm. silent_steps.
Qed.

Lemma silent_build_item :
  forall env alarm now, Py.silent (AlarmLogger.build_item env alarm now).
Proof.
  intros env alarm now. unfold AlarmLogger.build_item.
  silent_steps. apply silent_extract_loop.
Qed.

(** A silent computation is read off its outcome. *)
Lemma silent_run :
  forall (W A : Type) (m : Py.M W A) (w : W),
    Py.silent m -> m w = (fst (m w), w).
Proof.
  intros W A m w Hm. specialize (Hm w).
  destruct (m w) as [r w1]. simpl in *. now subst.
Qed.

(* ------------------------------------------------------------------ *)
(** ** The alarm logger, step by step *)
(* ------------------------------------------------------------------ *)

Lemma get_dict :
  forall (W : Type) a k d,
    @Py.get W (Py.VDict a) k d = Py.ret (Py.get_or k a d).
Proof.
  intros W a k d. unfold Py.get, Py.get_or.
  destruct (Py.lookup k a); reflexivity.
Qed.

Lemma extract_url_list :
  forall ds w,
    AlarmLogger._extract_url_from_dimensions (Py.VList ds) w
    = AlarmLogger.extract_loop ds w.
Proof. intros [| d ds] w; reflexivity. Qed.

(** A dimension with another name is passed over. *)
Lemma extract_loop_skip :
  forall d rest w,
    AlarmLogger.other_dimension d = true ->
    AlarmLogger.extract_loop (d :: rest) w
    = AlarmLogger.extract_loop rest w.
Proof.
  intros d rest w H. unfold AlarmLogger.other_dimension in H.
  apply andb_true_iff in H. destruct H as [Hd Hn].
  destruct d; try discriminate.
  apply negb_true_iff in Hn. unfold AlarmLogger.names_url in Hn.
  apply orb_false_iff in Hn. destruct Hn as [Hl Hu].
  cbn [AlarmLogger.extract_loop]. rewrite !get_dict. unfold Py.bind, Py.ret.
  rewrite Hl. rewrite Hu. reflexivity.
Qed.

(** The first dimension named URL gives the result. *)
Lemma extract_loop_hit :
  forall dd rest w,
    AlarmLogger.names_url (Py.VDict dd) = true ->
    AlarmLogger.extract_loop (Py.VDict dd :: rest) w
    = (Py.Ok (Py.or_ (Py.get_or "value" dd Py.VNone)
                     (Py.get_or "Value" dd Py.VNone)), w).
Proof.
  intros dd rest w H. unfold AlarmLogger.names_url in H.
  cbn [AlarmLogger.extract_loop]. rewrite !get_dict.
  unfold Py.bind, Py.ret, Py.or_.
  destruct (Py.eq_str (Py.get_or "name" dd Py.VNone) "URL") eqn:Hl.
  - destruct (Py.truthy (Py.get_or "value" dd Py.VNone)); reflexivity.
  - simpl in H. rewrite H.
    destruct (Py.truthy (Py.get_or "value" dd Py.VNone)); reflexivity.
Qed.

Lemma extract_loop_first :
  forall pre dd post w,
    forallb AlarmLogger.other_dimension pre = true ->
    AlarmLogger.names_url (Py.VDict dd) = true ->
    AlarmLogger.extract_loop (pre ++ Py.VDict dd :: post) w
    = (Py.Ok (Py.or_ (Py.get_or "value" dd Py.VNone)
                     (Py.get_or "Value" dd Py.VNone)), w).
Proof.
  induction pre as [| d pre IH]; intros dd post w Hpre Hdd.
  - apply extract_loop_hit. exact Hdd.
  - cbn [forallb] in Hpre. apply andb_true_iff in Hpre.
    destruct Hpre as [Hd Hpre].
    cbn [app]. rewrite extract_loop_skip by exact Hd.
    apply IH; assumption.
Qed.

Lemma extract_loop_none :
  forall ds w,
    forallb AlarmLogger.other_dimension ds = true ->
    AlarmLogger.extract_loop ds w = (Py.Ok Py.VNone, w).
Proof.
  induction ds as [| d ds IH]; intros w H.
  - reflexivity.
  - cbn [forallb] in H. apply andb_true_iff in H. destruct H as [Hd H].
    rewrite extract_loop_skip by exact Hd. apply IH. exact H.
Qed.

(** Over objects the search does not raise. *)
Lemma extract_loop_dicts :
  forall ds w,
    forallb Py.is_dict ds = true ->
    exists v, AlarmLogger.extract_loop ds w = (Py.Ok v, w).
Proof.
  induction ds as [| d ds IH]; intros w H.
  - exists Py.VNone. reflexivity.
  - cbn [forallb] in H. apply andb_true_iff in H. destruct H as [Hd H].
    destruct (AlarmLogger.names_url d) eqn:Hn.
    + destruct d; try discriminate.
      eexists. apply extract_loop_hit. exact Hn.
    + rewrite extract_loop_skip.
      * apply IH. exact H.
      * unfold AlarmLogger.other_dimension. now rewrite Hd, Hn.
Qed.

(** The three ways a turn of the logger's loop ends: before the clock is
    read, between the clock and the store, or at the store. *)
Lemma logger_body_cases :
  forall env record w,
    let t := AlarmLogger.utcnow_isoformat env w in
    let w1 := AlarmLogger.ENow t :: w in
    match fst (AlarmLogger.parse_alarm env record w) with
    | Py.Raise e => AlarmLogger.handler_body env record w = (Py.Raise e, w)
    | Py.Ok alarm =>
        match fst (AlarmLogger.build_item env alarm t w1) with
        | Py.Raise e =>
            AlarmLogger.handler_body env record w = (Py.Raise e, w1)
        | Py.Ok item =>
            let f := AlarmLogger.put_item_failure env w1 item in
            AlarmLogger.handler_body env record w
            = (match f with None => Py.Ok tt | Some e => Py.Raise e end,
               AlarmLogger.EPutItem item f :: w1)
        end
    end.
Proof.
  intros env record w. cbv zeta.
  unfold AlarmLogger.handler_body, Py.bind.
  pose proof (silent_parse_alarm env record w) as Hp.
  destruct (AlarmLogger.parse_alarm env record w) as [[alarm | e] w0];
    simpl in Hp; subst w0; simpl; [| reflexivity].
  pose proof (silent_build_item env alarm
                (AlarmLogger.utcnow_isoformat env w)
                (AlarmLogger.ENow (AlarmLogger.utcnow_isoformat env w) :: w))
    as Hb.
  destruct (AlarmLogger.build_item env alarm
              (AlarmLogger.utcnow_isoformat env w)
              (AlarmLogger.ENow (AlarmLogger.utcnow_isoformat env w) :: w))
    as [[item | e] w0]; simpl in Hb; subst w0; simpl; [| reflexivity].
  unfold AlarmLogger.put_item.
  destruct (AlarmLogger.put_item_failure env _ item); reflexivity.
Qed.

(** What an item that was built is made of. *)
Lemma build_item_inv :
  forall env alarm now w item w',
    AlarmLogger.build_item env alarm now w = (Py.Ok item, w') ->
    exists a,
      alarm = Py.VDict a /\
      AlarmLogger.Timestamp item = now /\
      AlarmLogger.AlarmName item
      = AlarmLogger.str env
          (Py.get_or "AlarmName" a (Py.VStr "UnknownAlarm")) /\
      AlarmLogger.NewStateValue item
      = AlarmLogger.str env
          (Py.get_or "NewStateValue" a (Py.VStr "UNKNOWN")) /\
      AlarmLogger.NewStateReason item
      = Py.slice_to 1000
          (AlarmLogger.str env (Py.get_or "NewStateReason" a (Py.VStr ""))) /\
      AlarmLogger.Raw item
      = Py.slice_to 3500 (AlarmLogger.json_dumps env alarm) /\
      exists t,
        Py.get_or "Trigger" a (Py.VDict []) = Py.VDict t /\
        fst (AlarmLogger._extract_url_from_dimensions
               (Py.get_or "Dimensions" t (Py.VList [])) w)
        = Py.Ok (AlarmLogger.URL item).
Proof.
  intros env alarm now w item w' H.
  destruct alarm as [| | | | | | a]; try discriminate H.
  exists a. split; [reflexivity |].
  unfold AlarmLogger.build_item in H.
  rewrite !get_dict in H. cbn [Py.bind Py.ret] in H.
  destruct (Py.get_or "Trigger" a (Py.VDict [])) as [| | | | | | t] eqn:Ht;
    try discriminate H.
  repeat (rewrite get_dict in H; cbn [Py.bind Py.ret] in H).
  pose proof (silent_extract_url
                (Py.get_or "Dimensions" t (Py.VList [])) w) as Hs.
  destruct (AlarmLogger._extract_url_from_dimensions
              (Py.get_or "Dimensions" t (Py.VList [])) w)
    as [[u | e] w2] eqn:Hx; unfold Py.bind in H; rewrite Hx in H;
    simpl in Hs; subst w2; [| discriminate H].
  unfold Py.ret in H. injection H as Hitem Hw. subst item w'. simpl.
  repeat (split; [reflexivity |]).
  exists t. split; [reflexivity | rewrite Hx; reflexivity].
Qed.

(** An item is built from every notification of the expected shape. *)
Lemma build_item_ok :
  forall env alarm now w,
    AlarmLogger.alarm_ok alarm = true ->
    exists item, AlarmLogger.build_item env alarm now w = (Py.Ok item, w).
Proof.
  intros env alarm now w H.
  destruct alarm as [| | | | | | a]; try discriminate H.
  simpl in H.
  assert (Hdims : forall t,
             AlarmLogger.trigger_ok (Py.VDict t) = true ->
             exists u,
               AlarmLogger._extract_url_from_dimensions
                 (Py.get_or "Dimensions" t (Py.VList [])) w = (Py.Ok u, w)).
  { intros t Ht. simpl in Ht. unfold Py.get_or.
    destruct (Py.lookup "Dimensions" t) as [dims |].
    - destruct dims; try discriminate Ht. simpl in Ht.
      rewrite extract_url_list. apply extract_loop_dicts. exact Ht.
    - exists Py.VNone. reflexivity. }
  assert (Htrig : exists t,
             Py.get_or "Trigger" a (Py.VDict []) = Py.VDict t /\
             AlarmLogger.trigger_ok (Py.VDict t) = true).
  { unfold Py.get_or. destruct (Py.lookup "Trigger" a) as [t |].
    - destruct t; try discriminate H. eexists. split; [reflexivity | exact H].
    - exists []. split; reflexivity. }
  destruct Htrig as (t & Ht & Hok).
  destruct (Hdims t Hok) as [u Hu].
  unfold AlarmLogger.build_item.
  repeat (rewrite get_dict; cbn [Py.bind Py.ret]). rewrite Ht.
  repeat (rewrite get_dict; cbn [Py.bind Py.ret]).
  unfold Py.bind. rewrite Hu.
  eexists. reflexivity.
Qed.

(** The [alarm] of a record that carries a message: the parsed message, or
    the fallback when [json.loads] raises. *)
Lemma parse_alarm_message :
  forall env record msg w,
    AlarmLogger.message_of record = Some msg ->
    AlarmLogger.parse_alarm env record w
    = (match AlarmLogger.loads env msg with
       | Py.Ok alarm => Py.Ok alarm
       | Py.Raise _ => Py.Ok (Py.VDict [("RawMessage", msg)])
       end, w).
Proof.
  intros env record msg w H.
  destruct record as [| | | | | | r]; try discriminate H.
  simpl in H.
  destruct (Py.lookup "Sns" r) as [sns |] eqn:Hsns; [| discriminate H].
  destruct sns as [| | | | | | sns]; try discriminate H.
  unfold AlarmLogger.parse_alarm, Py.try_except, Py.bind, Py.getitem,
    Py.get, AlarmLogger.of_res, Py.ret.
  rewrite Hsns. simpl. rewrite H. simpl.
  destruct (AlarmLogger.loads env msg) as [alarm | e]; reflexivity.
Qed.

(** A record of the expected shape always yields a notification of the
    expected shape. *)
Lemma parse_alarm_record_ok :
  forall env record w,
    AlarmLogger.record_ok env record = true ->
    exists alarm,
      AlarmLogger.parse_alarm env record w = (Py.Ok alarm, w) /\
      AlarmLogger.alarm_ok alarm = true.
Proof.
  intros env record w H.
  destruct record as [| | | | | | r]; try discriminate H.
  simpl in H.
  unfold AlarmLogger.parse_alarm, Py.try_except, Py.bind, Py.getitem,
    Py.get, AlarmLogger.of_res, Py.ret, Py.raise.
  destruct (Py.lookup "Sns" r) as [sns |] eqn:Hsns.
  - destruct sns as [| | | | | | sns]; try discriminate H.
    simpl.
    destruct (Py.lookup "Message" sns) as [msg |] eqn:Hmsg; simpl.
    + destruct (AlarmLogger.loads env msg) as [alarm | e].
      * exists alarm. split; [reflexivity | exact H].
      * eexists. split; [reflexivity | reflexivity].
    + eexists. split; [reflexivity | reflexivity].
  - simpl. eexists. split; [reflexivity | reflexivity].
Qed.

(** The handler is its loop, once the records have been found. *)
Lemma logger_handler_records :
  forall env d records w,
    Py.lookup "Records" d = Some (Py.VList records) ->
    AlarmLogger.handler env (Py.VDict d) w
    = (match fst (AlarmLogger.handler_loop env records w) with
       | Py.Ok _ => Py.Ok (AlarmLogger.mkResponse 200)
       | Py.Raise e => Py.Raise e
       end,
       snd (AlarmLogger.handler_loop env records w)).
Proof.
  intros env d records w H.
  unfold AlarmLogger.handler, Py.bind, Py.get, Py.ret. rewrite H. simpl.
  destruct (AlarmLogger.handler_loop env records w) as [[u | e] w'];
    reflexivity.
Qed.

(** In general the handler either raises before it touches anything or
    runs its loop over some records. *)
Lemma logger_handler_cases :
  forall env event w,
    (exists e, AlarmLogger.handler env event w = (Py.Raise e, w)) \/
    (exists records,
        AlarmLogger.handler env event w
        = (match fst (AlarmLogger.handler_loop env records w) with
           | Py.Ok _ => Py.Ok (AlarmLogger.mkResponse 200)
           | Py.Raise e => Py.Raise e
           end,
           snd (AlarmLogger.handler_loop env records w))).
Proof.
  intros env event w.
  unfold AlarmLogger.handler, Py.bind.
  pose proof (silent_get AlarmLogger.World event "Records" (Py.VList []) w)
    as Hg.
  destruct (Py.get event "Records" (Py.VList []) w) as [[rs | e] w0];
    simpl in Hg; subst w0; [| left; eexists; reflexivity].
  pose proof (silent_iter AlarmLogger.World rs w) as Hi.
  destruct (Py.iter rs w) as [[records | e] w0];
    simpl in Hi; subst w0; [| left; eexists; reflexivity].
  right. exists records.
  destruct (AlarmLogger.handler_loop env records w) as [[u | e] w'];
    reflexivity.
Qed.

(** Every item the loop hands to the store was built by [build_item]. *)
Lemma logger_loop_items :
  forall env records w item f,
    In (AlarmLogger.EPutItem item f)
       (snd (AlarmLogger.handler_loop env records w)) ->
    In (AlarmLogger.EPutItem item f) w \/
    exists alarm now w0,
      AlarmLogger.build_item env alarm now w0 = (Py.Ok item, w0).
Proof.
  intros env records.
  induction records as [| record rest IH]; intros w item f H.
  - left. exact H.
  - cbn [AlarmLogger.handler_loop] in H. unfold Py.bind in H.
    pose proof (logger_body_cases env record w) as Hb. cbv zeta in Hb.
    destruct (fst (AlarmLogger.parse_alarm env record w)) as [alarm | e].
    + pose proof (silent_build_item env alarm
                    (AlarmLogger.utcnow_isoformat env w)
                    (AlarmLogger.ENow (AlarmLogger.utcnow_isoformat env w)
                       :: w)) as Hs.
      destruct (AlarmLogger.build_item env alarm
                  (AlarmLogger.utcnow_isoformat env w)
                  (AlarmLogger.ENow (AlarmLogger.utcnow_isoformat env w)
                     :: w)) as [[it | e] w0] eqn:Hbuild;
        simpl in Hs, Hb; subst w0.
      * rewrite Hb in H.
        assert (Hhere :
                  In (AlarmLogger.EPutItem item f)
                     (AlarmLogger.EPutItem it
                        (AlarmLogger.put_item_failure env
                           (AlarmLogger.ENow
                              (AlarmLogger.utcnow_isoformat env w) :: w) it)
                      :: AlarmLogger.ENow
                           (AlarmLogger.utcnow_isoformat env w) :: w) ->
                  In (AlarmLogger.EPutItem item f) w \/
                  exists alarm now w0,
                    AlarmLogger.build_item env alarm now w0
                    = (Py.Ok item, w0)).
        { intros [Heq | [Heq | Hin]].
          - injection Heq as Hit Hf. subst it. right.
            do 3 eexists. exact Hbuild.
          - discriminate Heq.
          - left. exact Hin. }
        destruct (AlarmLogger.put_item_failure env _ it) as [e |].
        -- apply Hhere. exact H.
        -- apply IH in H. destruct H as [H | H]; [| right; exact H].
           apply Hhere. exact H.
      * rewrite Hb in H. simpl in H. destruct H as [H | H];
          [discriminate H | left; exact H].
    + rewrite Hb in H. left. exact H.
Qed.

(** A store write that raises ends the loop, and nothing else raises the
    count of failed writes. *)
Lemma logger_loop_failures :
  forall env records w,
    let run := AlarmLogger.handler_loop env records w in
    AlarmLogger.store_failures (snd run) = AlarmLogger.store_failures w \/
    exists item e rest,
      run = (Py.Raise e, AlarmLogger.EPutItem item (Some e) :: rest) /\
      AlarmLogger.store_failures (snd run)
      = S (AlarmLogger.store_failures w).
Proof.
  intros env records.
  induction records as [| record rest IH]; intros w; cbv zeta.
  - left. reflexivity.
  - cbn [AlarmLogger.handler_loop]. unfold Py.bind.
    pose proof (logger_body_cases env record w) as Hb. cbv zeta in Hb.
    destruct (fst (AlarmLogger.parse_alarm env record w)) as [alarm | e].
    + destruct (fst (AlarmLogger.build_item env alarm _ _)) as [it | e].
      * rewrite Hb.
        destruct (AlarmLogger.put_item_failure env _ it) as [e |].
        -- right. do 3 eexists. split; reflexivity.
        -- specialize (IH (AlarmLogger.EPutItem it None
                             :: AlarmLogger.ENow
                                  (AlarmLogger.utcnow_isoformat env w) :: w)).
           cbv zeta in IH. exact IH.
      * rewrite Hb. left. reflexivity.
    + rewrite Hb. left. reflexivity.
Qed.

(** Over records of the expected shape the loop raises at the store only. *)
Lemma logger_loop_ok_records :
  forall env records w e w',
    forallb (AlarmLogger.record_ok env) records = true ->
    AlarmLogger.handler_loop env records w = (Py.Raise e, w') ->
    exists item rest,
      w' = AlarmLogger.EPutItem item (Some e) :: rest /\
      AlarmLogger.store_failures w' = S (AlarmLogger.store_failures w).
Proof.
  intros env records.
  induction records as [| record rest IH]; intros w e w' Hok H.
  - discriminate H.
  - cbn [forallb] in Hok. apply andb_true_iff in Hok.
    destruct Hok as [Hrec Hok].
    cbn [AlarmLogger.handler_loop] in H. unfold Py.bind in H.
    pose proof (logger_body_cases env record w) as Hb. cbv zeta in Hb.
    destruct (parse_alarm_record_ok env record w Hrec)
      as (alarm & Hparse & Halarm).
    rewrite Hparse in Hb. simpl in Hb.
    destruct (build_item_ok env alarm
                (AlarmLogger.utcnow_isoformat env w)
                (AlarmLogger.ENow (AlarmLogger.utcnow_isoformat env w) :: w)
                Halarm) as [it Hbuild].
    rewrite Hbuild in Hb. simpl in Hb. rewrite Hb in H.
    destruct (AlarmLogger.put_item_failure env _ it) as [e' |].
    + injection H as He Hw. subst e' w'. do 2 eexists.
      split; reflexivity.
    + apply IH in H; [| exact Hok]. exact H.
Qed.


(** Over objects the search computes the URL of the specification. *)
Lemma extract_loop_spec :
  forall ds w,
    forallb Py.is_dict ds = true ->
    AlarmLogger.extract_loop ds w
    = (Py.Ok (AlarmLogger.spec_url_of_dimensions ds), w).
Proof.
  induction ds as [| d ds IH]; intros w H.
  - reflexivity.
  - cbn [forallb] in H. apply andb_true_iff in H. destruct H as [Hd H].
    unfold AlarmLogger.spec_url_of_dimensions. cbn [find].
    destruct (AlarmLogger.names_url d) eqn:Hn.
    + destruct d; try discriminate Hd.
      apply extract_loop_hit. exact Hn.
    + rewrite extract_loop_skip.
      * apply IH. exact H.
      * unfold AlarmLogger.other_dimension. now rewrite Hd, Hn.
Qed.

(** A turn on a record whose message does not parse. *)
Lemma logger_body_unparseable :
  forall env record msg e w,
    AlarmLogger.message_of record = Some msg ->
    AlarmLogger.loads env msg = Py.Raise e ->
    let now := AlarmLogger.utcnow_isoformat env w in
    let w1 := AlarmLogger.ENow now :: w in
    let item := AlarmLogger.degraded_item env now msg in
    let f := AlarmLogger.put_item_failure env w1 item in
    AlarmLogger.handler_body env record w
    = (match f with None => Py.Ok tt | Some ex => Py.Raise ex end,
       AlarmLogger.EPutItem item f :: w1).
Proof.
  intros env record msg e w Hmsg Hloads. cbv zeta.
  pose proof (logger_body_cases env record w) as Hb. cbv zeta in Hb.
  rewrite (parse_alarm_message env record msg w Hmsg), Hloads in Hb.
  exact Hb.
Qed.

Lemma logger_loop_unparseable :
  forall env records w,
    Forall (AlarmLogger.unparseable env) records ->
    let run := AlarmLogger.handler_loop env records w in
    (exists item e rest,
        run = (Py.Raise e, AlarmLogger.EPutItem item (Some e) :: rest)) \/
    (exists items w',
        run = (Py.Ok tt, w') /\
        AlarmLogger.written w' = AlarmLogger.written w ++ items /\
        Forall2 (AlarmLogger.degraded_from env) records items).
Proof.
  intros env records.
  induction records as [| record rest IH]; intros w Hall; cbv zeta.
  - right. exists [], w. repeat split.
    + now rewrite app_nil_r.
    + constructor.
  - inversion Hall as [| r rs Hrec Hrest]; subst.
    destruct Hrec as (msg & e & Hmsg & Hloads).
    cbn [AlarmLogger.handler_loop]. unfold Py.bind.
    rewrite (logger_body_unparseable env record msg e w Hmsg Hloads).
    destruct (AlarmLogger.put_item_failure env _ _) as [ex |] eqn:Hf.
    + left. do 3 eexists. reflexivity.
    + specialize (IH (AlarmLogger.EPutItem
                        (AlarmLogger.degraded_item env
                           (AlarmLogger.utcnow_isoformat env w) msg) None
                      :: AlarmLogger.ENow (AlarmLogger.utcnow_isoformat env w)
                      :: w) Hrest).
      cbv zeta in IH. destruct IH as [IH | (items & w' & Hrun & Hw & Hd)].
      * left. exact IH.
      * right.
        exists (AlarmLogger.degraded_item env
                  (AlarmLogger.utcnow_isoformat env w) msg :: items), w'.
        split; [exact Hrun | split].
        -- rewrite Hw. simpl. rewrite <- app_assoc. reflexivity.
        -- constructor; [| exact Hd].
           exists (AlarmLogger.utcnow_isoformat env w), msg.
           split; [exact Hmsg | reflexivity].
Qed.

(* ------------------------------------------------------------------ *)
(** ** The alarm logger *)
(* ------------------------------------------------------------------ *)

Lemma logger_loop_app :
  forall env pre rest w,
    AlarmLogger.handler_loop env (pre ++ rest) w
    = match AlarmLogger.handler_loop env pre w with
      | (Py.Ok _, w1) => AlarmLogger.handler_loop env rest w1
      | (Py.Raise e, w1) => (Py.Raise e, w1)
      end.
Proof.
  intros env pre.
  induction pre as [| p pre IH]; intros rest w.
  - reflexivity.
  - cbn [app AlarmLogger.handler_loop]. unfold Py.bind.
    destruct (AlarmLogger.handler_body env p w) as [[u | e] w1].
    + apply IH.
    + reflexivity.
Qed.

(** C6.  A record whose message cannot be parsed as JSON is neither dropped
    nor a cause of an exception: whenever the loop reaches such a record,
    from whatever world and in whatever event, its turn hands to the store
    exactly one item, the degraded item that carries the raw message, and
    the turn ends as that store write ends; when the write returns, the run
    goes on with the records after it. *)
Theorem unparseable_record_logged_degraded :
  forall env record msg e w,
    AlarmLogger.message_of record = Some msg ->
    AlarmLogger.loads env msg = Py.Raise e ->
    let now := AlarmLogger.utcnow_isoformat env w in
    let w1 := AlarmLogger.ENow now :: w in
    let item := AlarmLogger.degraded_item env now msg in
    let f := AlarmLogger.put_item_failure env w1 item in
    AlarmLogger.handler_body env record w
    = (match f with None => Py.Ok tt | Some ex => Py.Raise ex end,
       AlarmLogger.EPutItem item f :: w1) /\
    AlarmLogger.Raw item
    = Py.slice_to 3500
        (AlarmLogger.json_dumps env (Py.VDict [("RawMessage", msg)])) /\
    (forall d pre post w0,
        Py.lookup "Records" d = Some (Py.VList (pre ++ record :: post)) ->
        AlarmLogger.handler_loop env pre w0 = (Py.Ok tt, w) ->
        AlarmLogger.handler env (Py.VDict d) w0
        = match f with
          | None =>
              let w2 := AlarmLogger.EPutItem item None :: w1 in
              (match fst (AlarmLogger.handler_loop env post w2) with
               | Py.Ok _ => Py.Ok (AlarmLogger.mkResponse 200)
               | Py.Raise ex => Py.Raise ex
               end,
               snd (AlarmLogger.handler_loop env post w2))
          | Some ex =>
              (Py.Raise ex, AlarmLogger.EPutItem item (Some ex) :: w1)
          end).
Proof.
  intros env record msg e w Hmsg Hloads. cbv zeta.
  pose proof (logger_body_unparseable env record msg e w Hmsg Hloads) as Hb.
  cbv zeta in Hb.
  split; [exact Hb | split; [reflexivity |]].
  intros d pre post w0 Hrec Hpre.
  rewrite (logger_handler_records env d _ w0 Hrec).
  rewrite logger_loop_app, Hpre.
  cbn [AlarmLogger.handler_loop]. unfold Py.bind. rewrite Hb.
  destruct (AlarmLogger.put_item_failure env _ _) as [ex |]; reflexivity.
Qed.

Lemma unparseable_record_logged_degraded_witness :
  let env := Samples.store_up in
  let record := Samples.sns_record "not json" in
  let w := snd (AlarmLogger.handler_loop env [Samples.sns_record "{}"] []) in
  let now := AlarmLogger.utcnow_isoformat env w in
  let w1 := AlarmLogger.ENow now :: w in
  let item := AlarmLogger.degraded_item env now (Py.VStr "not json") in
  AlarmLogger.handler_body env record w
  = (Py.Ok tt, AlarmLogger.EPutItem item None :: w1) /\
  AlarmLogger.handler env
    (Samples.sns_event
       [Samples.sns_record "{}"; record; Samples.sns_record "[]"]) []
  = (Py.Raise
       (Py.Exc "AttributeError" "'list' object has no attribute 'get'"),
     AlarmLogger.ENow now :: AlarmLogger.EPutItem item None :: w1).
Proof.
  cbv zeta.
  destruct (unparseable_record_logged_degraded Samples.store_up
              (Samples.sns_record "not json") (Py.VStr "not json")
              (Py.Exc "JSONDecodeError"
                 "Expecting value: line 1 column 1 (char 0)")
              (snd (AlarmLogger.handler_loop Samples.store_up
                      [Samples.sns_record "{}"] []))
              eq_refl eq_refl) as (Hturn & _ & Hrun).
  split.
  - exact Hturn.
  - exact (Hrun [("Records",
                  Py.VList ([Samples.sns_record "{}"]
                            ++ Samples.sns_record "not json"
                            :: [Samples.sns_record "[]"]))]
             [Samples.sns_record "{}"] [Samples.sns_record "[]"] []
             eq_refl eq_refl).
Defined.

(** What [parse_alarm] gives does not depend on the world. *)
Lemma parse_alarm_world :
  forall env record w w',
    fst (AlarmLogger.parse_alarm env record w)
    = fst (AlarmLogger.parse_alarm env record w').
Proof.
  intros env record w w'.
  unfold AlarmLogger.parse_alarm, Py.try_except, Py.bind, Py.getitem,
    Py.get, AlarmLogger.of_res, Py.ret, Py.raise.
  destruct record as [| | | | | | r]; try reflexivity.
  destruct (Py.lookup "Sns" r) as [sns |]; [| reflexivity].
  destruct sns as [| | | | | | sns]; try reflexivity.
  simpl.
  destruct (Py.lookup "Message" sns) as [msg |]; [| reflexivity].
  simpl.
  destruct (AlarmLogger.loads env msg); reflexivity.
Qed.

(** The handler either raises before it touches anything or runs its loop
    over the records of the event. *)
Lemma logger_handler_records_of :
  forall env event w,
    (exists e, AlarmLogger.handler env event w = (Py.Raise e, w)) \/
    AlarmLogger.handler env event w
    = (match fst (AlarmLogger.handler_loop env
                    (AlarmLogger.records_of event) w) with
       | Py.Ok _ => Py.Ok (AlarmLogger.mkResponse 200)
       | Py.Raise e => Py.Raise e
       end,
       snd (AlarmLogger.handler_loop env (AlarmLogger.records_of event) w)).
Proof.
  intros env event w.
  destruct event as [| | | | | | d];
    try (left; eexists; reflexivity).
  unfold AlarmLogger.handler, AlarmLogger.records_of.
  rewrite get_dict. cbn [Py.bind Py.ret].
  destruct (Py.get_or "Records" d (Py.VList [])) as [| b | z | f | s | l | d'];
    try (left; eexists; reflexivity);
    right; unfold Py.bind; cbn [Py.iter Py.ret fst];
    match goal with
    | |- context [AlarmLogger.handler_loop env ?rs w] =>
        destruct (AlarmLogger.handler_loop env rs w) as [[u | e] w']
    end; reflexivity.
Qed.

(** Every item the loop hands to the store was built, by [build_item], from
    the notification of one of its records. *)
Lemma logger_loop_items_from :
  forall env records w item f,
    In (AlarmLogger.EPutItem item f)
       (snd (AlarmLogger.handler_loop env records w)) ->
    In (AlarmLogger.EPutItem item f) w \/
    exists record alarm now w0,
      In record records /\
      (forall w', fst (AlarmLogger.parse_alarm env record w') = Py.Ok alarm) /\
      AlarmLogger.build_item env alarm now w0 = (Py.Ok item, w0).
Proof.
  intros env records.
  induction records as [| record rest IH]; intros w item f H.
  - left. exact H.
  - cbn [AlarmLogger.handler_loop] in H. unfold Py.bind in H.
    pose proof (logger_body_cases env record w) as Hb. cbv zeta in Hb.
    destruct (fst (AlarmLogger.parse_alarm env record w)) as [alarm | e]
      eqn:Hparse.
    + pose proof (silent_build_item env alarm
                    (AlarmLogger.utcnow_isoformat env w)
                    (AlarmLogger.ENow (AlarmLogger.utcnow_isoformat env w)
                       :: w)) as Hs.
      destruct (AlarmLogger.build_item env alarm
                  (AlarmLogger.utcnow_isoformat env w)
                  (AlarmLogger.ENow (AlarmLogger.utcnow_isoformat env w)
                     :: w)) as [[it | e] w0] eqn:Hbuild;
        simpl in Hs, Hb; subst w0.
      * rewrite Hb in H.
        assert (Hhere :
                  In (AlarmLogger.EPutItem item f)
                     (AlarmLogger.EPutItem it
                        (AlarmLogger.put_item_failure env
                           (AlarmLogger.ENow
                              (AlarmLogger.utcnow_isoformat env w) :: w) it)
                      :: AlarmLogger.ENow
                           (AlarmLogger.utcnow_isoformat env w) :: w) ->
                  In (AlarmLogger.EPutItem item f) w \/
                  exists record0 alarm0 now w0,
                    In record0 (record :: rest) /\
                    (forall w',
                        fst (AlarmLogger.parse_alarm env record0 w')
                        = Py.Ok alarm0) /\
                    AlarmLogger.build_item env alarm0 now w0
                    = (Py.Ok item, w0)).
        { intros [Heq | [Heq | Hin]].
          - injection Heq as Hit Hf. subst it. right.
            exists record, alarm. do 2 eexists.
            split; [left; reflexivity | split; [| exact Hbuild]].
            intros w'. rewrite (parse_alarm_world env record w' w).
            exact Hparse.
          - discriminate Heq.
          - left. exact Hin. }
        destruct (AlarmLogger.put_item_failure env _ it) as [e |].
        -- apply Hhere. exact H.
        -- apply IH in H.
           destruct H as [H | (r0 & a0 & n0 & w0 & Hin & Hp & Hbd)].
           ++ apply Hhere. exact H.
           ++ right. exists r0, a0, n0, w0.
              split; [right; exact Hin | split; assumption].
      * rewrite Hb in H. simpl in H. destruct H as [H | H];
          [discriminate H | left; exact H].
    + rewrite Hb in H. left. exact H.
Qed.

(** C7.  Every item the handler hands to the store during a run comes from
    one of the records of the event: with [a] the notification of that
    record (its parsed message, or the fallback that carries the raw
    message), the item's NewStateReason is the first 1000 characters of the
    text of [a]'s reason and its Raw the first 3500 characters of the
    serialised [a], so the one is at most 1000 and the other at most 3500
    characters long. *)
Theorem stored_reason_and_raw_truncated_per_record :
  forall env event w item f,
    In (AlarmLogger.EPutItem item f)
       (snd (AlarmLogger.handler env event w)) ->
    In (AlarmLogger.EPutItem item f) w \/
    exists record a,
      In record (AlarmLogger.records_of event) /\
      (forall w0,
          fst (AlarmLogger.parse_alarm env record w0) = Py.Ok (Py.VDict a)) /\
      let reason :=
        AlarmLogger.str env (Py.get_or "NewStateReason" a (Py.VStr "")) in
      let payload := AlarmLogger.json_dumps env (Py.VDict a) in
      AlarmLogger.NewStateReason item = Py.slice_to 1000 reason /\
      AlarmLogger.Raw item = Py.slice_to 3500 payload /\
      String.length (AlarmLogger.NewStateReason item)
      = Nat.min 1000 (String.length reason) /\
      String.length (AlarmLogger.Raw item)
      = Nat.min 3500 (String.length payload) /\
      String.length (AlarmLogger.NewStateReason item) <= 1000 /\
      String.length (AlarmLogger.Raw item) <= 3500 /\
      (exists rest,
          reason = (AlarmLogger.NewStateReason item ++ rest)%string) /\
      (exists rest, payload = (AlarmLogger.Raw item ++ rest)%string).
Proof.
  intros env event w item f H.
  assert (Hloop :
            In (AlarmLogger.EPutItem item f) w \/
            In (AlarmLogger.EPutItem item f)
               (snd (AlarmLogger.handler_loop env
                       (AlarmLogger.records_of event) w))).
  { destruct (logger_handler_records_of env event w) as [[e He] | Hr].
    - rewrite He in H. left. exact H.
    - rewrite Hr in H. right. exact H. }
  destruct Hloop as [Hin | Hloop]; [left; exact Hin |].
  apply logger_loop_items_from in Hloop.
  destruct Hloop as [Hin | (record & alarm & now & w0 & Hrec & Hparse & Hbuild)];
    [left; exact Hin |].
  right.
  apply build_item_inv in Hbuild.
  destruct Hbuild as (a & Ha & _ & _ & _ & Hreason & Hraw & _).
  subst alarm. exists record, a.
  split; [exact Hrec | split; [exact Hparse |]].
  cbv zeta.
  rewrite Hreason, Hraw. rewrite !slice_to_length.
  repeat split; try reflexivity; try apply Nat.le_min_l;
    apply slice_to_prefix.
Qed.

Lemma stored_reason_and_raw_truncated_per_record_witness :
  let env := Samples.store_up_long in
  let event := Samples.sns_event [Samples.sns_record Samples.long_text] in
  let item := Samples.long_item in
  (String.length (AlarmLogger.NewStateReason item) = 1000 /\
   String.length (AlarmLogger.Raw item) = 3500 /\
   String.length Samples.long_text = 4092) /\
  (In (AlarmLogger.EPutItem item None) [] \/
   exists record a,
     In record (AlarmLogger.records_of event) /\
     (forall w0,
         fst (AlarmLogger.parse_alarm env record w0) = Py.Ok (Py.VDict a)) /\
     let reason :=
       AlarmLogger.str env (Py.get_or "NewStateReason" a (Py.VStr "")) in
     let payload := AlarmLogger.json_dumps env (Py.VDict a) in
     AlarmLogger.NewStateReason item = Py.slice_to 1000 reason /\
     AlarmLogger.Raw item = Py.slice_to 3500 payload /\
     String.length (AlarmLogger.NewStateReason item)
     = Nat.min 1000 (String.length reason) /\
     String.length (AlarmLogger.Raw item)
     = Nat.min 3500 (String.length payload) /\
     String.length (AlarmLogger.NewStateReason item) <= 1000 /\
     String.length (AlarmLogger.Raw item) <= 3500 /\
     (exists rest,
         reason = (AlarmLogger.NewStateReason item ++ rest)%string) /\
     (exists rest, payload = (AlarmLogger.Raw item ++ rest)%string)).
Proof.
  cbv zeta. split.
  - vm_compute. repeat split.
  - apply (stored_reason_and_raw_truncated_per_record Samples.store_up_long
             (Samples.sns_event [Samples.sns_record Samples.long_text]) []).
    vm_compute. left. reflexivity.
Defined.

(** C10.  On an event with no Records key, or with an empty Records list,
    the handler writes nothing, touches nothing and returns status 200. *)
Theorem no_records_no_writes :
  forall env d w,
    Py.lookup "Records" d = None \/
    Py.lookup "Records" d = Some (Py.VList []) ->
    AlarmLogger.handler env (Py.VDict d) w
    = (Py.Ok (AlarmLogger.mkResponse 200), w) /\
    AlarmLogger.store_writes (snd (AlarmLogger.handler env (Py.VDict d) w))
    = AlarmLogger.store_writes w.
Proof.
  intros env d w H.
  assert (Hrun : AlarmLogger.handler env (Py.VDict d) w
                 = (Py.Ok (AlarmLogger.mkResponse 200), w)).
  { unfold AlarmLogger.handler, Py.bind, Py.get, Py.ret.
    destruct H as [H | H]; rewrite H; reflexivity. }
  split; [exact Hrun | rewrite Hrun; reflexivity].
Qed.

Lemma no_records_no_writes_witness :
  AlarmLogger.handler Samples.store_down (Py.VDict []) []
  = (Py.Ok (AlarmLogger.mkResponse 200), []) /\
  AlarmLogger.store_writes
    (snd (AlarmLogger.handler Samples.store_down (Py.VDict []) []))
  = AlarmLogger.store_writes [].
Proof.
  apply (no_records_no_writes Samples.store_down [] []).
  left. reflexivity.
Defined.


(** C8 (as stated, refuted).  The same notification, once with the
    dimension keys spelled "name" and "value" and once spelled "NAME" and
    "VALUE": the first is stored with its URL, the second with a null URL,
    so the naming of the keys is not treated case-insensitively. *)
Lemma upper_case_dimension_keys_not_recognised :
  let ev kn kv :=
    Samples.sns_event [Samples.sns_record (Samples.notification_text kn kv)] in
  map AlarmLogger.URL
      (AlarmLogger.written
         (snd (AlarmLogger.handler Samples.store_up (ev "name" "value") [])))
  = [Py.VStr "https://example.com"] /\
  map AlarmLogger.URL
      (AlarmLogger.written
         (snd (AlarmLogger.handler Samples.store_up (ev "NAME" "VALUE") [])))
  = [Py.VNone] /\
  AlarmLogger._extract_url_from_dimensions
    (Py.VList [Py.VDict [("VALUE", Py.VStr "https://example.com");
                         ("NAME", Py.VStr "URL")]])
    ([] : AlarmLogger.World)
  = (Py.Ok Py.VNone, []).
Proof.
  vm_compute. repeat split.
Qed.

(** C8 (amended).  For a record whose message parses to a notification
    object with a Trigger object whose Dimensions is a list of objects, the
    turn hands one item to the store, with AlarmName and NewStateValue taken
    from the notification and with the URL of the first dimension whose
    "name" or "Name" entry is "URL": the "value" entry of that dimension
    when it is truthy, its "Value" entry otherwise; the URL is null when no
    dimension is so named.  Only these two spellings of each key are looked
    up. *)
Theorem url_taken_from_url_dimension :
  forall env record msg a t ds w,
    AlarmLogger.message_of record = Some msg ->
    AlarmLogger.loads env msg = Py.Ok (Py.VDict a) ->
    Py.lookup "Trigger" a = Some (Py.VDict t) ->
    Py.lookup "Dimensions" t = Some (Py.VList ds) ->
    forallb Py.is_dict ds = true ->
    exists item,
      let now := AlarmLogger.utcnow_isoformat env w in
      let w1 := AlarmLogger.ENow now :: w in
      let f := AlarmLogger.put_item_failure env w1 item in
      AlarmLogger.handler_body env record w
      = (match f with None => Py.Ok tt | Some e => Py.Raise e end,
         AlarmLogger.EPutItem item f :: w1) /\
      AlarmLogger.AlarmName item
      = AlarmLogger.str env
          (Py.get_or "AlarmName" a (Py.VStr "UnknownAlarm")) /\
      AlarmLogger.NewStateValue item
      = AlarmLogger.str env
          (Py.get_or "NewStateValue" a (Py.VStr "UNKNOWN")) /\
      AlarmLogger.URL item = AlarmLogger.spec_url_of_dimensions ds /\
      (find AlarmLogger.names_url ds = None ->
       AlarmLogger.URL item = Py.VNone) /\
      (forall dd,
          AlarmLogger.names_url (Py.VDict dd) = true <->
          Py.lookup "name" dd = Some (Py.VStr "URL") \/
          Py.lookup "Name" dd = Some (Py.VStr "URL")) /\
      (forall dd v,
          Py.truthy v = true ->
          Py.lookup "value" dd = Some v \/
          (Py.lookup "value" dd = None /\ Py.lookup "Value" dd = Some v) ->
          Py.or_ (Py.get_or "value" dd Py.VNone)
                 (Py.get_or "Value" dd Py.VNone) = v).
Proof.
  intros env record msg a t ds w Hmsg Hloads Htrig Hdims Hds.
  assert (Halarm : AlarmLogger.alarm_ok (Py.VDict a) = true).
  { simpl. rewrite Htrig. simpl. rewrite Hdims. exact Hds. }
  destruct (build_item_ok env (Py.VDict a)
              (AlarmLogger.utcnow_isoformat env w)
              (AlarmLogger.ENow (AlarmLogger.utcnow_isoformat env w) :: w)
              Halarm) as [item Hbuild].
  exists item. cbv zeta.
  pose proof (logger_body_cases env record w) as Hb. cbv zeta in Hb.
  rewrite (parse_alarm_message env record msg w Hmsg), Hloads in Hb.
  simpl in Hb. rewrite Hbuild in Hb. simpl in Hb.
  apply build_item_inv in Hbuild.
  destruct Hbuild as (a' & Ha & _ & Hname & Hstate & _ & _ & t' & Ht & Hurl).
  injection Ha as Ha. subst a'.
  unfold Py.get_or in Ht. rewrite Htrig in Ht. injection Ht as Ht. subst t'.
  unfold Py.get_or in Hurl. rewrite Hdims in Hurl.
  rewrite extract_url_list, (extract_loop_spec ds _ Hds) in Hurl.
  simpl in Hurl. injection Hurl as Hurl.
  split; [exact Hb |].
  split; [exact Hname |].
  split; [exact Hstate |].
  split; [symmetry; exact Hurl |].
  split; [| split].
  - intros Hnone. rewrite <- Hurl.
    unfold AlarmLogger.spec_url_of_dimensions. rewrite Hnone. reflexivity.
  - intros dd. unfold AlarmLogger.names_url, Py.get_or, Py.eq_str.
    rewrite orb_true_iff.
    split.
    + intros [H | H]; [left | right];
        match type of H with
        | context [Py.lookup ?k dd] =>
            destruct (Py.lookup k dd) as [[| | | | s | |] |];
              try discriminate H;
              apply String.eqb_eq in H; now subst
        end.
    + intros [H | H]; rewrite H; [left | right]; reflexivity.
  - intros dd v Hv [H | [H1 H2]]; unfold Py.or_, Py.get_or.
    + rewrite H, Hv. reflexivity.
    + rewrite H1, H2. reflexivity.
Qed.

Lemma url_taken_from_url_dimension_witness :
  exists item,
    AlarmLogger.handler_body Samples.store_up
      (Samples.sns_record (Samples.notification_text "name" "value")) []
    = (Py.Ok tt,
       [AlarmLogger.EPutItem item None;
        AlarmLogger.ENow "2025-07-01T00:00:00+00:00"]) /\
    AlarmLogger.AlarmName item = "AvailAlarmhttpsexamplecom" /\
    AlarmLogger.NewStateValue item = "ALARM" /\
    AlarmLogger.URL item = Py.VStr "https://example.com".
Proof.
  destruct (url_taken_from_url_dimension Samples.store_up
              (Samples.sns_record (Samples.notification_text "name" "value"))
              (Py.VStr (Samples.notification_text "name" "value"))
              [("AlarmName", Py.VStr "AvailAlarmhttpsexamplecom");
               ("NewStateValue", Py.VStr "ALARM");
               ("NewStateReason", Py.VStr "Threshold Crossed");
               ("Trigger",
                Py.VDict
                  [("MetricName", Py.VStr "Availability");
                   ("Namespace", Py.VStr "WebsiteHealth");
                   ("Dimensions",
                    Py.VList
                      [Py.VDict [("value", Py.VStr "https://example.com");
                                 ("name", Py.VStr "URL")]])])]
              [("MetricName", Py.VStr "Availability");
               ("Namespace", Py.VStr "WebsiteHealth");
               ("Dimensions",
                Py.VList
                  [Py.VDict [("value", Py.VStr "https://example.com");
                             ("name", Py.VStr "URL")]])]
              [Py.VDict [("value", Py.VStr "https://example.com");
                         ("name", Py.VStr "URL")]]
              []
              eq_refl eq_refl eq_refl eq_refl eq_refl)
    as (item & Hrun & Hname & Hstate & Hurl & _).
  exists item. repeat split; assumption.
Defined.

(** C9 (as stated, refuted).  A record whose message is the JSON text of an
    empty array: the store accepts every write, no write is even tried, and
    the handler raises all the same. *)
Lemma logger_raises_without_store_failure :
  let run :=
    AlarmLogger.handler Samples.store_up
      (Samples.sns_event [Samples.sns_record "[]"]) [] in
  fst run
  = Py.Raise (Py.Exc "AttributeError" "'list' object has no attribute 'get'")
  /\ AlarmLogger.store_writes (snd run) = 0%nat
  /\ AlarmLogger.store_failures (snd run) = 0%nat.
Proof.
  vm_compute. repeat split.
Qed.

(** C9 (amended).  A store write that raises is surfaced: during a run
    either no write raised, or exactly one did, it was the last thing the
    handler did and its exception is the one the handler raises.  Parse
    failures are swallowed: on an event whose records have the expected
    shape (a message that does not parse, or that parses to a notification
    object whose Trigger and Dimensions, when present, are an object and a
    list of objects) the handler raises only when a store write raised. *)
Theorem store_failure_is_surfaced :
  forall env event w,
    let run := AlarmLogger.handler env event w in
    (AlarmLogger.store_failures (snd run) = AlarmLogger.store_failures w \/
     exists item e rest,
       run = (Py.Raise e, AlarmLogger.EPutItem item (Some e) :: rest) /\
       AlarmLogger.store_failures (snd run)
       = S (AlarmLogger.store_failures w)) /\
    (forall d records e,
        event = Py.VDict d ->
        Py.lookup "Records" d = Some (Py.VList records) ->
        forallb (AlarmLogger.record_ok env) records = true ->
        fst run = Py.Raise e ->
        exists item rest,
          snd run = AlarmLogger.EPutItem item (Some e) :: rest /\
          AlarmLogger.store_failures (snd run)
          = S (AlarmLogger.store_failures w)).
Proof.
  intros env event w. cbv zeta. split.
  - destruct (logger_handler_cases env event w) as [[e He] | [records Hr]].
    + left. rewrite He. reflexivity.
    + rewrite Hr. simpl.
      destruct (logger_loop_failures env records w)
        as [Hsame | (item & e & rest & Hrun & Hcount)].
      * left. exact Hsame.
      * right. exists item, e, rest. rewrite Hrun in *. simpl in *.
        split; [reflexivity | exact Hcount].
  - intros d records e Hev Hrec Hok Hraise. subst event.
    rewrite (logger_handler_records env d records w Hrec) in *.
    simpl in *.
    destruct (AlarmLogger.handler_loop env records w) as [[u | e'] w'] eqn:Hl;
      simpl in *; [discriminate Hraise |].
    injection Hraise as He. subst e'.
    exact (logger_loop_ok_records env records w e w' Hok Hl).
Qed.

Lemma store_failure_is_surfaced_witness :
  let run :=
    AlarmLogger.handler Samples.store_down
      (Samples.sns_event [Samples.sns_record "not json"]) [] in
  exists item rest,
    snd run
    = AlarmLogger.EPutItem item
        (Some (Py.Exc "ClientError" "ProvisionedThroughputExceededException"))
      :: rest /\
    AlarmLogger.store_failures (snd run) = S (AlarmLogger.store_failures []).
Proof.
  apply (proj2 (store_failure_is_surfaced Samples.store_down
                  (Samples.sns_event [Samples.sns_record "not json"]) [])
           [("Records", Py.VList [Samples.sns_record "not json"])]
           [Samples.sns_record "not json"]
           (Py.Exc "ClientError" "ProvisionedThroughputExceededException")).
  - reflexivity.
  - reflexivity.
  - reflexivity.
  - reflexivity.
Defined.

(* ================================================================== *)
(** * Further properties of the prober *)
(* ================================================================== *)

(** The world a probe leaves, and what it returns, case by case. *)
Lemma probe_trace :
  forall env u w,
    let req := Crawler.mkRequest u [("User-Agent", "Canary/1.0")] in
    let w0 := Crawler.ETime (Crawler.clock env w) :: w in
    Crawler.probe env u w
    = match Crawler.request_error env u with
      | Some e =>
          (Py.Ok (0%Z, 0%float),
           Crawler.EPrint ("[ERROR] " ++ u ++ ": " ++ Py.str_of_exn e) :: w)
      | None =>
          match Crawler.urlopen_result env w0 req 10 with
          | Py.Ok code =>
              let w1 := Crawler.EUrlopen req 10 (Py.Ok code) :: w0 in
              (Py.Ok (if Z.eqb code 200 then 1%Z else 0%Z,
                      ((Crawler.clock env w1 - Crawler.clock env w) * 1000)
                        %float),
               Crawler.ETime (Crawler.clock env w1) :: w1)
          | Py.Raise e =>
              (Py.Ok (0%Z, 0%float),
               Crawler.EPrint ("[ERROR] " ++ u ++ ": " ++ Py.str_of_exn e)
               :: Crawler.EUrlopen req 10 (Py.Raise e) :: w0)
          end
      end.
Proof.
  intros env u w. cbv zeta.
  unfold Crawler.probe, Crawler._http_get, Crawler.mk_request,
    Crawler.urlopen, Crawler.time, Crawler.print, Py.try_except, Py.bind,
    Py.ret, Py.raise.
  destruct (Crawler.request_error env u) as [e |]; [reflexivity |].
  simpl.
  destruct (Crawler.urlopen_result env _ _ _) as [code | e]; reflexivity.
Qed.


(** The status a probe returns is 0 or 1. *)
Lemma probe_status_01 :
  forall env u w st lat w1,
    Crawler.probe env u w = (Py.Ok (st, lat), w1) ->
    st = 0%Z \/ st = 1%Z.
Proof.
  intros env u w st lat w1 H.
  rewrite probe_trace in H. cbv zeta in H.
  destruct (Crawler.request_error env u) as [e |].
  - injection H as Hst _ _. left. now subst.
  - destruct (Crawler.urlopen_result env _ _ _) as [code | e].
    + injection H as Hst _ _. subst st.
      destruct (Z.eqb code 200); [right | left]; reflexivity.
    + injection H as Hst _ _. left. now subst.
Qed.


(** Every summary of a loop that returns has status 0 or 1. *)
Lemma handler_loop_status :
  forall env sites acc w out w',
    Crawler.handler_loop env sites acc w = (Py.Ok out, w') ->
    Forall (fun r => Crawler.status r = 0%Z \/ Crawler.status r = 1%Z) acc ->
    Forall (fun r => Crawler.status r = 0%Z \/ Crawler.status r = 1%Z) out.
Proof.
  intros env sites.
  induction sites as [| u rest IH]; intros acc w out w' H Hacc.
  - injection H as Hout _. now subst.
  - cbn [Crawler.handler_loop] in H. unfold Py.bind in H.
    destruct (handler_body_spec env u w) as (st & lat & w1 & Hp & _ & Hb).
    cbv zeta in Hb. rewrite Hb in H.
    destruct (Crawler.put_metric_data_failure env w1 Crawler.NAMESPACE
                (Crawler.metric_data u st lat)) as [e |]; [discriminate H |].
    eapply IH; [exact H |].
    apply Forall_app. split; [exact Hacc |].
    constructor; [| constructor].
    simpl. eapply probe_status_01. exact Hp.
Qed.

(** X1.  With an empty list of targets the handler asks nothing of the
    network, the clock or the sink: it prints an empty summary and returns
    status 200 with an empty body. *)
Theorem crawler_no_target_no_effect :
  forall env w,
    Crawler.sites_json env = [] ->
    Crawler.handler env w
    = (Py.Ok (Crawler.mkResponse 200 []), [Crawler.EPrintResults []] ++ w) /\
    Crawler.publish_calls (snd (Crawler.handler env w))
    = Crawler.publish_calls w /\
    Crawler.probed (snd (Crawler.handler env w)) = Crawler.probed w.
Proof.
  intros env w H.
  assert (Hrun : Crawler.handler env w
                 = (Py.Ok (Crawler.mkResponse 200 []),
                    [Crawler.EPrintResults []] ++ w)).
  { unfold Crawler.handler. rewrite H. reflexivity. }
  rewrite Hrun. repeat split.
Qed.

Lemma crawler_no_target_no_effect_witness :
  Crawler.handler Samples.no_target []
  = (Py.Ok (Crawler.mkResponse 200 []), [Crawler.EPrintResults []] ++ []) /\
  Crawler.publish_calls (snd (Crawler.handler Samples.no_target []))
  = Crawler.publish_calls [] /\
  Crawler.probed (snd (Crawler.handler Samples.no_target [])) =
  Crawler.probed [].
Proof.
  apply (crawler_no_target_no_effect Samples.no_target []).
  reflexivity.
Defined.



(** X3.  When the handler of the prober returns, its body holds one summary
    per target, in the order of the targets, every status in it is 0 or 1,
    and the samples of the publish calls of the run are the values of these
    summaries. *)
Theorem crawler_summary_matches_published :
  forall env w resp w',
    Crawler.handler env w = (Py.Ok resp, w') ->
    Crawler.statusCode resp = 200%Z /\
    map Crawler.url (Crawler.body resp) = Crawler.sites_json env /\
    Forall (fun r => Crawler.status r = 0%Z \/ Crawler.status r = 1%Z)
           (Crawler.body resp) /\
    map (map Crawler.datum_Value)
        (skipn (List.length (Crawler.publish_calls w))
               (Crawler.publish_calls w'))
    = map (fun r => [Crawler.NInt (Crawler.status r);
                     Crawler.NFloat (Crawler.latency_ms r)])
          (Crawler.body resp).
Proof.
  intros env w resp w' H.
  unfold Crawler.handler, Py.bind in H.
  destruct (Crawler.handler_loop env (Crawler.sites_json env) [] w)
    as [[out | e] w1] eqn:Hl; [| discriminate H].
  injection H as Hresp Hw. subst resp w'. simpl.
  pose proof (handler_loop_status _ _ _ _ _ _ Hl (Forall_nil _)) as Hst.
  destruct (handler_loop_ok _ _ _ _ _ _ Hl) as (rs & Hout & Hurl & Hpub).
  simpl in Hout. subst out.
  repeat split; try assumption.
  rewrite Hpub, skipn_app, Nat.sub_diag, skipn_all. simpl.
  rewrite map_map. reflexivity.
Qed.

Lemma crawler_summary_matches_published_witness :
  exists resp w',
    Crawler.handler Samples.one_target_down [] = (Py.Ok resp, w') /\
    Crawler.statusCode resp = 200%Z /\
    map Crawler.url (Crawler.body resp)
    = Crawler.sites_json Samples.one_target_down /\
    Forall (fun r => Crawler.status r = 0%Z \/ Crawler.status r = 1%Z)
           (Crawler.body resp) /\
    map (map Crawler.datum_Value)
        (skipn (List.length (Crawler.publish_calls []))
               (Crawler.publish_calls w'))
    = map (fun r => [Crawler.NInt (Crawler.status r);
                     Crawler.NFloat (Crawler.latency_ms r)])
          (Crawler.body resp).
Proof.
  do 2 eexists. split; [vm_compute; reflexivity |].
  eapply crawler_summary_matches_published.
  vm_compute. reflexivity.
Defined.

(** X4.  For a URL that [urllib.request.Request] rejects, the probe opens
    no connection and does not read the clock: it prints the error line and
    gives availability 0 and latency 0.0, which the turn publishes. *)
Theorem crawler_malformed_url_not_requested :
  forall env u w e,
    Crawler.request_error env u = Some e ->
    Crawler.probe env u w
    = (Py.Ok (0%Z, 0%float),
       Crawler.EPrint ("[ERROR] " ++ u ++ ": " ++ Py.str_of_exn e) :: w) /\
    Crawler.probed (snd (Crawler.handler_body env u w)) = Crawler.probed w /\
    Crawler.publish_calls (snd (Crawler.handler_body env u w))
    = Crawler.publish_calls w ++ [Crawler.metric_data u 0 0].
Proof.
  intros env u w e H.
  assert (Hp : Crawler.probe env u w
               = (Py.Ok (0%Z, 0%float),
                  Crawler.EPrint ("[ERROR] " ++ u ++ ": " ++ Py.str_of_exn e)
                  :: w)).
  { rewrite probe_trace. cbv zeta. rewrite H. reflexivity. }
  split; [exact Hp |].
  destruct (handler_body_spec env u w) as (st & lat & w1 & Hp' & _ & Hb).
  rewrite Hp in Hp'. injection Hp' as Hst Hlat Hw. subst st lat w1.
  cbv zeta in Hb. rewrite Hb. simpl.
  split; reflexivity.
Qed.

Lemma crawler_malformed_url_not_requested_witness :
  Crawler.probe Samples.malformed_target "example.com" []
  = (Py.Ok (0%Z, 0%float),
     [Crawler.EPrint
        ("[ERROR] " ++ "example.com" ++ ": "
         ++ Py.str_of_exn
              (Py.Exc "ValueError" "unknown url type: 'example.com'"))]) /\
  Crawler.probed
    (snd (Crawler.handler_body Samples.malformed_target "example.com" []))
  = Crawler.probed [] /\
  Crawler.publish_calls
    (snd (Crawler.handler_body Samples.malformed_target "example.com" []))
  = Crawler.publish_calls [] ++ [Crawler.metric_data "example.com" 0 0].
Proof.
  apply (crawler_malformed_url_not_requested Samples.malformed_target
           "example.com" []
           (Py.Exc "ValueError" "unknown url type: 'example.com'")).
  reflexivity.
Defined.

(** X5.  For a URL that [urllib.request.Request] accepts, the probe opens
    exactly one connection, with the header User-Agent: Canary/1.0 and a
    timeout of 10 seconds, and never a second one; it reads the clock right
    before it, and right after it only when a response came; it prints an
    error line exactly when opening raised, whatever the status code of a
    response. *)
Theorem crawler_probe_requests_once :
  forall env u w,
    Crawler.request_error env u = None ->
    let req := Crawler.mkRequest u [("User-Agent", "Canary/1.0")] in
    let w0 := Crawler.ETime (Crawler.clock env w) :: w in
    snd (Crawler.probe env u w)
    = match Crawler.urlopen_result env w0 req 10 with
      | Py.Ok code =>
          let w1 := Crawler.EUrlopen req 10 (Py.Ok code) :: w0 in
          Crawler.ETime (Crawler.clock env w1) :: w1
      | Py.Raise e =>
          Crawler.EPrint ("[ERROR] " ++ u ++ ": " ++ Py.str_of_exn e)
          :: Crawler.EUrlopen req 10 (Py.Raise e) :: w0
      end /\
    Crawler.probed (snd (Crawler.probe env u w)) = Crawler.probed w ++ [u].
Proof.
  intros env u w H. cbv zeta.
  rewrite probe_trace. cbv zeta. rewrite H.
  destruct (Crawler.urlopen_result env _ _ _) as [code | e];
    split; reflexivity.
Qed.

Lemma crawler_probe_requests_once_witness :
  snd (Crawler.probe Samples.one_target_down "https://down.example" [])
  = [Crawler.EPrint "[ERROR] https://down.example: <urlopen error timed out>";
     Crawler.EUrlopen
       (Crawler.mkRequest "https://down.example"
          [("User-Agent", "Canary/1.0")])
       10 (Py.Raise (Py.Exc "URLError" "<urlopen error timed out>"));
     Crawler.ETime 100%float] /\
  Crawler.probed
    (snd (Crawler.probe Samples.one_target_down "https://down.example" []))
  = Crawler.probed [] ++ ["https://down.example"].
Proof.
  apply (crawler_probe_requests_once Samples.one_target_down
           "https://down.example" []).
  reflexivity.
Defined.

(* ================================================================== *)
(** * Further properties of the alarm logger *)
(* ================================================================== *)

Lemma logger_body_stamped :
  forall env record w,
    AlarmLogger.well_stamped w ->
    AlarmLogger.well_stamped (snd (AlarmLogger.handler_body env record w)).
Proof.
  intros env record w Hw.
  pose proof (logger_body_cases env record w) as Hb. cbv zeta in Hb.
  destruct (fst (AlarmLogger.parse_alarm env record w)) as [alarm | e].
  - pose proof (silent_build_item env alarm
                  (AlarmLogger.utcnow_isoformat env w)
                  (AlarmLogger.ENow (AlarmLogger.utcnow_isoformat env w) :: w))
      as Hs.
    destruct (AlarmLogger.build_item env alarm
                (AlarmLogger.utcnow_isoformat env w)
                (AlarmLogger.ENow (AlarmLogger.utcnow_isoformat env w) :: w))
      as [[item | e] w0] eqn:Hbuild; simpl in Hs, Hb; subst w0.
    + rewrite Hb. simpl.
      apply build_item_inv in Hbuild.
      destruct Hbuild as (a & _ & Hstamp & _).
      split; [exact Hstamp | exact Hw].
    + rewrite Hb. simpl. exact Hw.
  - rewrite Hb. exact Hw.
Qed.

Lemma logger_loop_stamped :
  forall env records w,
    AlarmLogger.well_stamped w ->
    AlarmLogger.well_stamped (snd (AlarmLogger.handler_loop env records w)).
Proof.
  intros env records.
  induction records as [| record rest IH]; intros w Hw.
  - exact Hw.
  - cbn [AlarmLogger.handler_loop]. unfold Py.bind.
    pose proof (logger_body_stamped env record w Hw) as Hb.
    destruct (AlarmLogger.handler_body env record w) as [[u | e] w1];
      simpl in Hb.
    + apply IH. exact Hb.
    + exact Hb.
Qed.

(** X6.  Every item the logger hands to the store is stamped at processing
    time: the write comes right after a reading of the clock, and the
    Timestamp of the item is that reading. *)
Theorem logger_items_stamped_at_processing :
  forall env event w,
    AlarmLogger.well_stamped w ->
    AlarmLogger.well_stamped (snd (AlarmLogger.handler env event w)).
Proof.
  intros env event w Hw.
  destruct (logger_handler_cases env event w) as [[e He] | [records Hr]].
  - rewrite He. exact Hw.
  - rewrite Hr. simpl. apply logger_loop_stamped. exact Hw.
Qed.

Lemma logger_items_stamped_at_processing_witness :
  AlarmLogger.well_stamped
    (snd (AlarmLogger.handler Samples.store_up
            (Samples.sns_event
               [Samples.sns_record "not json";
                Samples.sns_record (Samples.notification_text "name" "value")])
            [])).
Proof.
  apply (logger_items_stamped_at_processing Samples.store_up
           (Samples.sns_event
              [Samples.sns_record "not json";
               Samples.sns_record (Samples.notification_text "name" "value")])
           []).
  exact I.
Defined.

Lemma written_length :
  forall w,
    List.length (AlarmLogger.written w) + AlarmLogger.store_failures w
    = AlarmLogger.store_writes w.
Proof.
  induction w as [| ev w IH]; [reflexivity |].
  destruct ev as [t | item [e |]]; simpl.
  - exact IH.
  - rewrite Nat.add_succ_r. now rewrite IH.
  - rewrite length_app. simpl. rewrite <- IH. lia.
Qed.

(** A turn tries at most one store write. *)
Lemma logger_body_writes :
  forall env record w,
    let run := AlarmLogger.handler_body env record w in
    match fst run with
    | Py.Ok _ =>
        AlarmLogger.store_writes (snd run) = S (AlarmLogger.store_writes w) /\
        AlarmLogger.store_failures (snd run) = AlarmLogger.store_failures w
    | Py.Raise _ =>
        AlarmLogger.store_writes (snd run) <= S (AlarmLogger.store_writes w)
    end.
Proof.
  intros env record w. cbv zeta.
  pose proof (logger_body_cases env record w) as Hb. cbv zeta in Hb.
  destruct (fst (AlarmLogger.parse_alarm env record w)) as [alarm | e].
  - destruct (fst (AlarmLogger.build_item env alarm _ _)) as [item | e].
    + rewrite Hb.
      destruct (AlarmLogger.put_item_failure env _ item) as [e |]; simpl.
      * lia.
      * split; reflexivity.
    + rewrite Hb. simpl. lia.
  - rewrite Hb. simpl. lia.
Qed.

Lemma logger_loop_writes :
  forall env records w,
    let run := AlarmLogger.handler_loop env records w in
    AlarmLogger.store_writes (snd run)
    <= AlarmLogger.store_writes w + List.length records /\
    match fst run with
    | Py.Ok _ =>
        AlarmLogger.store_writes (snd run)
        = AlarmLogger.store_writes w + List.length records /\
        AlarmLogger.store_failures (snd run) = AlarmLogger.store_failures w
    | Py.Raise _ => True
    end.
Proof.
  intros env records.
  induction records as [| record rest IH]; intros w; cbv zeta.
  - simpl. split; [lia | split; [lia | reflexivity]].
  - cbn [AlarmLogger.handler_loop]. unfold Py.bind.
    pose proof (logger_body_writes env record w) as Hb. cbv zeta in Hb.
    destruct (AlarmLogger.handler_body env record w) as [[u | e] w1];
      simpl in Hb.
    + destruct Hb as [Hw Hf].
      specialize (IH w1). cbv zeta in IH. destruct IH as [Hle Hok].
      split.
      * rewrite Hw in Hle. simpl. lia.
      * destruct (fst (AlarmLogger.handler_loop env rest w1)); [| exact I].
        destruct Hok as [Hok1 Hok2]. rewrite Hok1, Hok2, Hw, Hf.
        simpl. split; [lia | reflexivity].
    + simpl. split; [lia | exact I].
Qed.

(** X7.  The logger tries at most one store write per record, and when it
    returns it has written exactly one item per record, none refused: the
    same record delivered twice is written twice. *)
Theorem logger_writes_one_item_per_record :
  forall env d records w,
    Py.lookup "Records" d = Some (Py.VList records) ->
    let run := AlarmLogger.handler env (Py.VDict d) w in
    AlarmLogger.store_writes (snd run)
    <= AlarmLogger.store_writes w + List.length records /\
    (forall resp,
        fst run = Py.Ok resp ->
        List.length (AlarmLogger.written (snd run))
        = List.length (AlarmLogger.written w) + List.length records /\
        AlarmLogger.store_failures (snd run) = AlarmLogger.store_failures w).
Proof.
  intros env d records w Hrec. cbv zeta.
  rewrite (logger_handler_records env d records w Hrec). simpl.
  destruct (logger_loop_writes env records w) as [Hle Hok].
  split; [exact Hle |].
  intros resp Hresp.
  destruct (fst (AlarmLogger.handler_loop env records w));
    [| discriminate Hresp].
  destruct Hok as [Hw Hf].
  split; [| exact Hf].
  pose proof (written_length (snd (AlarmLogger.handler_loop env records w))).
  pose proof (written_length w).
  lia.
Qed.

Lemma logger_writes_one_item_per_record_witness :
  let run :=
    AlarmLogger.handler Samples.store_up
      (Samples.sns_event
         [Samples.sns_record "{}"; Samples.sns_record "{}"]) [] in
  AlarmLogger.store_writes (snd run) <= AlarmLogger.store_writes [] + 2 /\
  (forall resp,
      fst run = Py.Ok resp ->
      List.length (AlarmLogger.written (snd run))
      = List.length (AlarmLogger.written []) + 2 /\
      AlarmLogger.store_failures (snd run) = AlarmLogger.store_failures []).
Proof.
  apply (logger_writes_one_item_per_record Samples.store_up
           [("Records",
             Py.VList [Samples.sns_record "{}"; Samples.sns_record "{}"])]
           [Samples.sns_record "{}"; Samples.sns_record "{}"] []).
  reflexivity.
Defined.

(** X8.  A record object without an Sns entry, or whose Sns object has no
    Message entry, is not dropped and raises nothing by itself: it is
    handed to the store as the degraded item of an empty message. *)
Theorem logger_record_without_message_is_logged :
  forall env r w,
    Py.lookup "Sns" r = None \/
    (exists sns,
        Py.lookup "Sns" r = Some (Py.VDict sns) /\
        Py.lookup "Message" sns = None) ->
    let now := AlarmLogger.utcnow_isoformat env w in
    let w1 := AlarmLogger.ENow now :: w in
    let item := AlarmLogger.degraded_item env now (Py.VStr "") in
    let f := AlarmLogger.put_item_failure env w1 item in
    AlarmLogger.handler_body env (Py.VDict r) w
    = (match f with None => Py.Ok tt | Some e => Py.Raise e end,
       AlarmLogger.EPutItem item f :: w1).
Proof.
  intros env r w H. cbv zeta.
  assert (Hparse :
            AlarmLogger.parse_alarm env (Py.VDict r) w
            = (Py.Ok (Py.VDict [("RawMessage", Py.VStr "")]), w)).
  { unfold AlarmLogger.parse_alarm, Py.try_except, Py.bind, Py.getitem,
      Py.get, AlarmLogger.of_res, Py.ret, Py.raise.
    destruct H as [H | (sns & Hsns & Hmsg)].
    - rewrite H. reflexivity.
    - rewrite Hsns. simpl. rewrite Hmsg. reflexivity. }
  pose proof (logger_body_cases env (Py.VDict r) w) as Hb. cbv zeta in Hb.
  rewrite Hparse in Hb. exact Hb.
Qed.

Lemma logger_record_without_message_is_logged_witness :
  let now := AlarmLogger.utcnow_isoformat Samples.store_up [] in
  let w1 := [AlarmLogger.ENow now] in
  let item := AlarmLogger.degraded_item Samples.store_up now (Py.VStr "") in
  let f := AlarmLogger.put_item_failure Samples.store_up w1 item in
  AlarmLogger.handler_body Samples.store_up
    (Py.VDict [("EventSource", Py.VStr "aws:sns")]) []
  = (match f with None => Py.Ok tt | Some e => Py.Raise e end,
     AlarmLogger.EPutItem item f :: w1).
Proof.
  apply (logger_record_without_message_is_logged Samples.store_up
           [("EventSource", Py.VStr "aws:sns")] []).
  left. reflexivity.
Defined.

(** X9.  A record that is not an object, or whose Sns entry is not an
    object, makes the turn raise AttributeError out of the [except] branch
    itself, before the clock is read and before any store write. *)
Theorem logger_record_not_object_raises :
  forall env record v w,
    (record = v /\ Py.is_dict v = false) \/
    (exists r,
        record = Py.VDict r /\ Py.lookup "Sns" r = Some v /\
        Py.is_dict v = false) ->
    AlarmLogger.handler_body env record w
    = (Py.Raise
         (Py.Exc "AttributeError"
            ("'" ++ Py.type_name v ++ "' object has no attribute 'get'")),
       w).
Proof.
  intros env record v w H.
  assert (Hparse :
            AlarmLogger.parse_alarm env record w
            = (Py.Raise
                 (Py.Exc "AttributeError"
                    ("'" ++ Py.type_name v
                     ++ "' object has no attribute 'get'")), w)).
  { unfold AlarmLogger.parse_alarm, Py.try_except, Py.bind, Py.getitem,
      Py.get, AlarmLogger.of_res, Py.ret, Py.raise.
    destruct H as [[Hv Hd] | (r & Hr & Hsns & Hd)].
    - subst v. destruct record; try discriminate Hd; reflexivity.
    - subst record. rewrite Hsns.
      destruct v; try discriminate Hd; reflexivity. }
  pose proof (logger_body_cases env record w) as Hb. cbv zeta in Hb.
  rewrite Hparse in Hb. exact Hb.
Qed.

Lemma logger_record_not_object_raises_witness :
  AlarmLogger.handler_body Samples.store_up (Py.VStr "ping") []
  = (Py.Raise
       (Py.Exc "AttributeError"
          ("'" ++ Py.type_name (Py.VStr "ping")
           ++ "' object has no attribute 'get'")),
     []).
Proof.
  apply (logger_record_not_object_raises Samples.store_up
           (Py.VStr "ping") (Py.VStr "ping") []).
  left. split; reflexivity.
Defined.

(** X10.  A message that is valid JSON but not an object, or an object
    whose Trigger entry is not an object, is not covered by the [except]
    branch: the turn reads the clock and then raises AttributeError, and
    nothing is handed to the store. *)
Theorem logger_message_not_object_raises :
  forall env record msg alarm v w,
    AlarmLogger.message_of record = Some msg ->
    AlarmLogger.loads env msg = Py.Ok alarm ->
    (alarm = v /\ Py.is_dict v = false) \/
    (exists a,
        alarm = Py.VDict a /\ Py.lookup "Trigger" a = Some v /\
        Py.is_dict v = false) ->
    AlarmLogger.handler_body env record w
    = (Py.Raise
         (Py.Exc "AttributeError"
            ("'" ++ Py.type_name v ++ "' object has no attribute 'get'")),
       AlarmLogger.ENow (AlarmLogger.utcnow_isoformat env w) :: w).
Proof.
  intros env record msg alarm v w Hmsg Hloads H.
  pose proof (logger_body_cases env record w) as Hb. cbv zeta in Hb.
  rewrite (parse_alarm_message env record msg w Hmsg), Hloads in Hb.
  simpl in Hb.
  assert (Hbuild :
            forall now w0,
              AlarmLogger.build_item env alarm now w0
              = (Py.Raise
                   (Py.Exc "AttributeError"
                      ("'" ++ Py.type_name v
                       ++ "' object has no attribute 'get'")), w0)).
  { intros now w0.
    destruct H as [[Hv Hd] | (a & Ha & Htrig & Hd)].
    - subst v. destruct alarm; try discriminate Hd; reflexivity.
    - subst alarm. unfold AlarmLogger.build_item.
      repeat (rewrite get_dict; cbn [Py.bind Py.ret]).
      unfold Py.get_or at 1. rewrite Htrig.
      destruct v; try discriminate Hd; reflexivity. }
  rewrite Hbuild in Hb. exact Hb.
Qed.

Lemma logger_message_not_object_raises_witness :
  AlarmLogger.handler_body Samples.store_up (Samples.sns_record "null") []
  = (Py.Raise
       (Py.Exc "AttributeError"
          ("'" ++ Py.type_name Py.VNone
           ++ "' object has no attribute 'get'")),
     [AlarmLogger.ENow (AlarmLogger.utcnow_isoformat Samples.store_up [])]).
Proof.
  apply (logger_message_not_object_raises Samples.store_up
           (Samples.sns_record "null") (Py.VStr "null") Py.VNone Py.VNone []).
  - reflexivity.
  - reflexivity.
  - left. split; reflexivity.
Defined.

(** X11.  A notification object without a Trigger entry is stored with
    MetricName "Unknown", an empty Namespace and a null URL, next to its
    own AlarmName and NewStateValue (or their defaults); its absence raises
    nothing. *)
Theorem logger_notification_without_trigger :
  forall env record msg a w,
    AlarmLogger.message_of record = Some msg ->
    AlarmLogger.loads env msg = Py.Ok (Py.VDict a) ->
    Py.lookup "Trigger" a = None ->
    let now := AlarmLogger.utcnow_isoformat env w in
    let w1 := AlarmLogger.ENow now :: w in
    let item :=
      {| AlarmLogger.AlarmName :=
           AlarmLogger.str env
             (Py.get_or "AlarmName" a (Py.VStr "UnknownAlarm"));
         AlarmLogger.Timestamp := now;
         AlarmLogger.NewStateValue :=
           AlarmLogger.str env
             (Py.get_or "NewStateValue" a (Py.VStr "UNKNOWN"));
         AlarmLogger.NewStateReason :=
           Py.slice_to 1000
             (AlarmLogger.str env
                (Py.get_or "NewStateReason" a (Py.VStr "")));
         AlarmLogger.MetricName := "Unknown";
         AlarmLogger.Namespace := "";
         AlarmLogger.URL := Py.VNone;
         AlarmLogger.Raw :=
           Py.slice_to 3500 (AlarmLogger.json_dumps env (Py.VDict a)) |} in
    let f := AlarmLogger.put_item_failure env w1 item in
    AlarmLogger.handler_body env record w
    = (match f with None => Py.Ok tt | Some e => Py.Raise e end,
       AlarmLogger.EPutItem item f :: w1).
Proof.
  intros env record msg a w Hmsg Hloads Htrig. cbv zeta.
  pose proof (logger_body_cases env record w) as Hb. cbv zeta in Hb.
  rewrite (parse_alarm_message env record msg w Hmsg), Hloads in Hb.
  simpl in Hb.
  assert (Hbuild :
            forall now w0,
              AlarmLogger.build_item env (Py.VDict a) now w0
              = (Py.Ok
                   {| AlarmLogger.AlarmName :=
                        AlarmLogger.str env
                          (Py.get_or "AlarmName" a (Py.VStr "UnknownAlarm"));
                      AlarmLogger.Timestamp := now;
                      AlarmLogger.NewStateValue :=
                        AlarmLogger.str env
                          (Py.get_or "NewStateValue" a (Py.VStr "UNKNOWN"));
                      AlarmLogger.NewStateReason :=
                        Py.slice_to 1000
                          (AlarmLogger.str env
                             (Py.get_or "NewStateReason" a (Py.VStr "")));
                      AlarmLogger.MetricName := "Unknown";
                      AlarmLogger.Namespace := "";
                      AlarmLogger.URL := Py.VNone;
                      AlarmLogger.Raw :=
                        Py.slice_to 3500
                          (AlarmLogger.json_dumps env (Py.VDict a)) |},
                 w0)).
  { intros now w0. unfold AlarmLogger.build_item.
    repeat (rewrite get_dict; cbn [Py.bind Py.ret]).
    assert (Ht : Py.get_or "Trigger" a (Py.VDict []) = Py.VDict []).
    { unfold Py.get_or. now rewrite Htrig. }
    rewrite Ht.
    repeat (rewrite get_dict; cbn [Py.bind Py.ret]).
    reflexivity. }
  rewrite Hbuild in Hb. exact Hb.
Qed.

Lemma logger_notification_without_trigger_witness :
  AlarmLogger.handler_body Samples.store_up (Samples.sns_record "{}") []
  = (Py.Ok tt,
     [AlarmLogger.EPutItem
        (AlarmLogger.mkItem "UnknownAlarm" "2025-07-01T00:00:00+00:00"
           "UNKNOWN" "" "Unknown" "" Py.VNone "{}") None;
      AlarmLogger.ENow "2025-07-01T00:00:00+00:00"]).
Proof.
  apply (logger_notification_without_trigger Samples.store_up
           (Samples.sns_record "{}") (Py.VStr "{}") [] []).
  - reflexivity.
  - reflexivity.
  - reflexivity.
Defined.

Lemma logger_loop_aborts :
  forall env pre record post w w1 e,
    AlarmLogger.handler_loop env pre w = (Py.Ok tt, w1) ->
    fst (AlarmLogger.handler_body env record w1) = Py.Raise e ->
    AlarmLogger.handler_loop env (pre ++ record :: post) w
    = (Py.Raise e, snd (AlarmLogger.handler_body env record w1)).
Proof.
  intros env pre.
  induction pre as [| p pre IH]; intros record post w w1 e Hpre Hrec.
  - injection Hpre as Hw. subst w1.
    cbn [app AlarmLogger.handler_loop]. unfold Py.bind.
    destruct (AlarmLogger.handler_body env record w) as [[u | e'] w2];
      simpl in Hrec; [discriminate Hrec |].
    injection Hrec as He. now subst.
  - cbn [app AlarmLogger.handler_loop] in *. unfold Py.bind in *.
    destruct (AlarmLogger.handler_body env p w) as [[u | e'] w2];
      [| discriminate Hpre].
    apply IH; assumption.
Qed.

(** X12.  A record whose turn raises ends the batch: the exception leaves
    the handler and the records after it are not processed at all (no
    reading of the clock, no store write), whatever they are. *)
Theorem logger_raising_record_ends_batch :
  forall env d pre record post w w1 e,
    Py.lookup "Records" d = Some (Py.VList (pre ++ record :: post)) ->
    AlarmLogger.handler_loop env pre w = (Py.Ok tt, w1) ->
    fst (AlarmLogger.handler_body env record w1) = Py.Raise e ->
    AlarmLogger.handler env (Py.VDict d) w
    = (Py.Raise e, snd (AlarmLogger.handler_body env record w1)) /\
    AlarmLogger.store_writes (snd (AlarmLogger.handler env (Py.VDict d) w))
    <= AlarmLogger.store_writes w + List.length pre + 1.
Proof.
  intros env d pre record post w w1 e Hrec Hpre Hraise.
  assert (Hrun : AlarmLogger.handler env (Py.VDict d) w
                 = (Py.Raise e,
                    snd (AlarmLogger.handler_body env record w1))).
  { rewrite (logger_handler_records env d _ w Hrec).
    rewrite (logger_loop_aborts env pre record post w w1 e Hpre Hraise).
    reflexivity. }
  split; [exact Hrun |].
  rewrite Hrun. simpl.
  pose proof (logger_loop_writes env pre w) as Hl. cbv zeta in Hl.
  rewrite Hpre in Hl. simpl in Hl. destruct Hl as [_ [Hw _]].
  pose proof (logger_body_writes env record w1) as Hb. cbv zeta in Hb.
  rewrite Hraise in Hb. lia.
Qed.

Lemma logger_raising_record_ends_batch_witness :
  AlarmLogger.handler Samples.store_up
    (Samples.sns_event
       [Samples.sns_record "{}"; Samples.sns_record "[]";
        Samples.sns_record "{}"]) []
  = (Py.Raise
       (Py.Exc "AttributeError" "'list' object has no attribute 'get'"),
     snd (AlarmLogger.handler_body Samples.store_up (Samples.sns_record "[]")
            (snd (AlarmLogger.handler_loop Samples.store_up
                    [Samples.sns_record "{}"] [])))) /\
  AlarmLogger.store_writes
    (snd (AlarmLogger.handler Samples.store_up
            (Samples.sns_event
               [Samples.sns_record "{}"; Samples.sns_record "[]";
                Samples.sns_record "{}"]) []))
  <= AlarmLogger.store_writes [] + List.length [Samples.sns_record "{}"] + 1.
Proof.
  apply (logger_raising_record_ends_batch Samples.store_up
           [("Records",
             Py.VList [Samples.sns_record "{}"; Samples.sns_record "[]";
                       Samples.sns_record "{}"])]
           [Samples.sns_record "{}"] (Samples.sns_record "[]")
           [Samples.sns_record "{}"] []).
  - reflexivity.
  - vm_compute. reflexivity.
  - vm_compute. reflexivity.
Defined.


(** X22.  An event that is not an object, or whose Records entry is null,
    a number or a boolean, makes the handler raise at once (AttributeError,
    resp. TypeError): nothing is read and nothing is written.  A Records
    entry that is present but null is thus not treated like an absent
    one. *)
Theorem logger_event_not_iterable_raises :
  forall env event w,
    (Py.is_dict event = false ->
     AlarmLogger.handler env event w
     = (Py.Raise
          (Py.Exc "AttributeError"
             ("'" ++ Py.type_name event
              ++ "' object has no attribute 'get'")), w)) /\
    (forall d v,
        event = Py.VDict d ->
        Py.lookup "Records" d = Some v ->
        (v = Py.VNone \/ (exists b, v = Py.VBool b) \/
         (exists z, v = Py.VInt z) \/ (exists f, v = Py.VFloat f)) ->
        AlarmLogger.handler env event w
        = (Py.Raise
             (Py.Exc "TypeError"
                ("'" ++ Py.type_name v ++ "' object is not iterable")), w)).
Proof.
  intros env event w. split.
  - intros H. destruct event; try discriminate H; reflexivity.
  - intros d v Hev Hrec Hv. subst event.
    unfold AlarmLogger.handler, Py.bind, Py.get, Py.ret. rewrite Hrec.
    destruct Hv as [Hv | [[b Hv] | [[z Hv] | [f Hv]]]]; subst v; reflexivity.
Qed.

Lemma logger_event_not_iterable_raises_witness :
  AlarmLogger.handler Samples.store_up
    (Py.VDict [("Records", Py.VNone)]) []
  = (Py.Raise
       (Py.Exc "TypeError"
          ("'" ++ Py.type_name Py.VNone ++ "' object is not iterable")), []).
Proof.
  apply (proj2 (logger_event_not_iterable_raises Samples.store_up
                  (Py.VDict [("Records", Py.VNone)]) [])
           [("Records", Py.VNone)] Py.VNone).
  - reflexivity.
  - reflexivity.
  - left. reflexivity.
Defined.

(* ================================================================== *)
(** * Further properties of [_extract_url_from_dimensions] *)
(* ================================================================== *)

(** X13.  Dimensions that are absent or falsy (null, an empty list, an
    empty string, zero, false, an empty object) give a null URL and raise
    nothing. *)
Theorem extract_url_falsy_dimensions :
  forall dims (w : AlarmLogger.World),
    Py.truthy dims = false ->
    AlarmLogger._extract_url_from_dimensions dims w = (Py.Ok Py.VNone, w).
Proof.
  intros dims w H.
  unfold AlarmLogger._extract_url_from_dimensions, Py.or_, Py.bind.
  rewrite H. reflexivity.
Qed.

Lemma extract_url_falsy_dimensions_witness :
  AlarmLogger._extract_url_from_dimensions Py.VNone
    ([] : AlarmLogger.World)
  = (Py.Ok Py.VNone, []).
Proof.
  apply (extract_url_falsy_dimensions Py.VNone []).
  reflexivity.
Defined.

(** X14.  Dimensions that are truthy but not a list make the search raise:
    TypeError for a number or [true], which cannot be iterated,
    AttributeError for a non-empty string or object, whose characters or
    keys are strings and have no [get]. *)
Theorem extract_url_dimensions_not_list_raises :
  forall dims (w : AlarmLogger.World),
    Py.truthy dims = true ->
    (forall l, dims <> Py.VList l) ->
    AlarmLogger._extract_url_from_dimensions dims w
    = (Py.Raise
         match dims with
         | Py.VStr _ | Py.VDict _ =>
             Py.Exc "AttributeError" "'str' object has no attribute 'get'"
         | _ =>
             Py.Exc "TypeError"
               ("'" ++ Py.type_name dims ++ "' object is not iterable")
         end,
       w).
Proof.
  intros dims w Ht Hl.
  unfold AlarmLogger._extract_url_from_dimensions, Py.or_, Py.bind.
  rewrite Ht.
  destruct dims as [| b | z | f | s | l | d]; simpl in Ht.
  - discriminate Ht.
  - reflexivity.
  - reflexivity.
  - reflexivity.
  - destruct s as [| c s]; [discriminate Ht | reflexivity].
  - exfalso. exact (Hl l eq_refl).
  - destruct d as [| [k v] d]; [discriminate Ht | reflexivity].
Qed.

Lemma extract_url_dimensions_not_list_raises_witness :
  AlarmLogger._extract_url_from_dimensions
    (Py.VDict [("name", Py.VStr "URL");
               ("value", Py.VStr "https://example.com")])
    ([] : AlarmLogger.World)
  = (Py.Raise
       (Py.Exc "AttributeError" "'str' object has no attribute 'get'"), [])
  /\
  AlarmLogger._extract_url_from_dimensions (Py.VInt 7)
    ([] : AlarmLogger.World)
  = (Py.Raise (Py.Exc "TypeError" "'int' object is not iterable"), []).
Proof.
  split.
  - apply (extract_url_dimensions_not_list_raises
             (Py.VDict [("name", Py.VStr "URL");
                        ("value", Py.VStr "https://example.com")]) []).
    + reflexivity.
    + intros l H. discriminate H.
  - apply (extract_url_dimensions_not_list_raises (Py.VInt 7) []).
    + reflexivity.
    + intros l H. discriminate H.
Defined.

(** X15.  The first dimension named URL decides: the dimensions before it
    are passed over, and whatever comes after it (a second URL dimension,
    a value that is not an object) is never looked at. *)
Theorem extract_url_first_match_wins :
  forall pre dd post (w : AlarmLogger.World),
    forallb AlarmLogger.other_dimension pre = true ->
    AlarmLogger.names_url (Py.VDict dd) = true ->
    AlarmLogger._extract_url_from_dimensions
      (Py.VList (pre ++ Py.VDict dd :: post)) w
    = (Py.Ok (Py.or_ (Py.get_or "value" dd Py.VNone)
                     (Py.get_or "Value" dd Py.VNone)), w).
Proof.
  intros pre dd post w Hpre Hdd.
  rewrite extract_url_list.
  apply extract_loop_first; assumption.
Qed.

Lemma extract_url_first_match_wins_witness :
  AlarmLogger._extract_url_from_dimensions
    (Py.VList
       ([Py.VDict [("name", Py.VStr "Region"); ("value", Py.VStr "eu")]]
        ++ Py.VDict [("name", Py.VStr "URL");
                     ("value", Py.VStr "https://example.com")]
        :: [Py.VInt 7;
            Py.VDict [("name", Py.VStr "URL");
                      ("value", Py.VStr "https://example.org")]]))
    ([] : AlarmLogger.World)
  = (Py.Ok
       (Py.or_
          (Py.get_or "value"
             [("name", Py.VStr "URL");
              ("value", Py.VStr "https://example.com")] Py.VNone)
          (Py.get_or "Value"
             [("name", Py.VStr "URL");
              ("value", Py.VStr "https://example.com")] Py.VNone)),
     []).
Proof.
  apply (extract_url_first_match_wins
           [Py.VDict [("name", Py.VStr "Region"); ("value", Py.VStr "eu")]]
           [("name", Py.VStr "URL"); ("value", Py.VStr "https://example.com")]
           [Py.VInt 7;
            Py.VDict [("name", Py.VStr "URL");
                      ("value", Py.VStr "https://example.org")]]
           []).
  - reflexivity.
  - reflexivity.
Defined.

(** X16.  An element that is not an object and comes before any dimension
    named URL makes the search raise AttributeError. *)
Theorem extract_url_non_object_before_match_raises :
  forall pre d post (w : AlarmLogger.World),
    forallb AlarmLogger.other_dimension pre = true ->
    Py.is_dict d = false ->
    AlarmLogger._extract_url_from_dimensions
      (Py.VList (pre ++ d :: post)) w
    = (Py.Raise
         (Py.Exc "AttributeError"
            ("'" ++ Py.type_name d ++ "' object has no attribute 'get'")),
       w).
Proof.
  intros pre d post w Hpre Hd.
  rewrite extract_url_list.
  induction pre as [| p pre IH].
  - destruct d; try discriminate Hd; reflexivity.
  - cbn [forallb] in Hpre. apply andb_true_iff in Hpre.
    destruct Hpre as [Hp Hpre].
    cbn [app]. rewrite extract_loop_skip by exact Hp.
    apply IH. exact Hpre.
Qed.

Lemma extract_url_non_object_before_match_raises_witness :
  AlarmLogger._extract_url_from_dimensions
    (Py.VList
       ([] ++ Py.VStr "URL"
        :: [Py.VDict [("name", Py.VStr "URL");
                      ("value", Py.VStr "https://example.com")]]))
    ([] : AlarmLogger.World)
  = (Py.Raise
       (Py.Exc "AttributeError"
          ("'" ++ Py.type_name (Py.VStr "URL")
           ++ "' object has no attribute 'get'")),
     []).
Proof.
  apply (extract_url_non_object_before_match_raises [] (Py.VStr "URL")
           [Py.VDict [("name", Py.VStr "URL");
                      ("value", Py.VStr "https://example.com")]]
           []).
  - reflexivity.
  - reflexivity.
Defined.

(* ================================================================== *)
(** * Further properties of the stack: construct ids and metrics *)
(* ================================================================== *)

Lemma strip_non_alnum_all_alnum :
  forall s, Stack.all_alnum (Stack.strip_non_alnum s) = true.
Proof.
  induction s as [| c s IH]; simpl; [reflexivity |].
  destruct (Stack.is_alnum c) eqn:Hc; simpl; [rewrite Hc |]; exact IH.
Qed.

Lemma strip_non_alnum_fixed :
  forall s, Stack.all_alnum s = true -> Stack.strip_non_alnum s = s.
Proof.
  induction s as [| c s IH]; simpl; intros H; [reflexivity |].
  apply andb_true_iff in H. destruct H as [Hc Hs].
  rewrite Hc, IH by exact Hs. reflexivity.
Qed.

Lemma strip_non_alnum_app :
  forall s1 s2,
    Stack.strip_non_alnum (s1 ++ s2)
    = (Stack.strip_non_alnum s1 ++ Stack.strip_non_alnum s2)%string.
Proof.
  induction s1 as [| c s1 IH]; intros s2; simpl; [reflexivity |].
  destruct (Stack.is_alnum c); simpl; now rewrite IH.
Qed.

Lemma slice_to_all_alnum :
  forall n s,
    Stack.all_alnum s = true -> Stack.all_alnum (Py.slice_to n s) = true.
Proof.
  unfold Py.slice_to.
  induction n as [| n IH]; intros s H.
  - destruct s; reflexivity.
  - destruct s as [| c s]; simpl; [reflexivity |].
    simpl in H. apply andb_true_iff in H. destruct H as [Hc Hs].
    rewrite Hc. simpl. apply IH. exact Hs.
Qed.

Lemma eqb_empty_length :
  forall s, String.eqb s "" = true <-> String.length s = 0.
Proof.
  intros s. destruct s; simpl; split; intros H;
    try reflexivity; discriminate H.
Qed.

(** X17.  Whatever the URL, its fragment is fit for a construct id: it is
    not empty, it has at most 60 characters, and all of them are ASCII
    letters or digits. *)
Theorem id_fragment_well_formed :
  forall url,
    Stack._to_id_fragment url <> "" /\
    String.length (Stack._to_id_fragment url) <= 60 /\
    Stack.all_alnum (Stack._to_id_fragment url) = true.
Proof.
  intros url. unfold Stack._to_id_fragment. cbv zeta.
  destruct (String.eqb (Py.slice_to 60 (Stack.strip_non_alnum url)) "")
    eqn:He.
  - repeat split; [discriminate | simpl; lia].
  - repeat split.
    + intros H. rewrite H in He. discriminate He.
    + rewrite slice_to_length. apply Nat.le_min_l.
    + apply slice_to_all_alnum, strip_non_alnum_all_alnum.
Qed.

(** X18.  The fragment does not see the characters that are not letters or
    digits: adding or removing one anywhere in a URL leaves the fragment,
    and with it the ids of the two alarms of the URL, unchanged.  So URLs
    that differ only in punctuation (a trailing slash, say) get the same
    alarm ids. *)
Theorem id_fragment_ignores_punctuation :
  forall s1 c s2,
    Stack.is_alnum c = false ->
    Stack._to_id_fragment (s1 ++ String c s2)
    = Stack._to_id_fragment (s1 ++ s2) /\
    map fst (Stack.url_alarms (s1 ++ String c s2))
    = map fst (Stack.url_alarms (s1 ++ s2)).
Proof.
  intros s1 c s2 Hc.
  assert (H : Stack._to_id_fragment (s1 ++ String c s2)
              = Stack._to_id_fragment (s1 ++ s2)).
  { unfold Stack._to_id_fragment.
    rewrite !strip_non_alnum_app. simpl. rewrite Hc. reflexivity. }
  split; [exact H |].
  unfold Stack.url_alarms. cbv zeta. simpl. rewrite H. reflexivity.
Qed.

Lemma id_fragment_ignores_punctuation_witness :
  Stack._to_id_fragment ("https://example.com" ++ String "/" "")
  = Stack._to_id_fragment ("https://example.com" ++ "") /\
  map fst (Stack.url_alarms ("https://example.com" ++ String "/" ""))
  = map fst (Stack.url_alarms ("https://example.com" ++ "")).
Proof.
  apply (id_fragment_ignores_punctuation "https://example.com" "/"%char "").
  reflexivity.
Defined.

(** X19.  Taking the fragment is idempotent: a fragment is its own
    fragment. *)
Theorem id_fragment_idempotent :
  forall url,
    Stack._to_id_fragment (Stack._to_id_fragment url)
    = Stack._to_id_fragment url.
Proof.
  intros url.
  destruct (id_fragment_well_formed url) as (Hne & Hlen & Hal).
  set (f := Stack._to_id_fragment url) in *.
  unfold Stack._to_id_fragment at 1. cbv zeta.
  rewrite (strip_non_alnum_fixed f Hal).
  rewrite (slice_to_short 60 f Hlen).
  destruct (String.eqb f "") eqn:He; [| reflexivity].
  apply String.eqb_eq in He. contradiction.
Qed.

Lemma NoDup_app_iff :
  forall (A : Type) (l1 l2 : list A),
    NoDup (l1 ++ l2) <->
    NoDup l1 /\ NoDup l2 /\ (forall a, In a l1 -> ~ In a l2).
Proof.
  intros A l1 l2. split.
  - intros H. split; [| split].
    + eapply NoDup_app_remove_r. exact H.
    + eapply NoDup_app_remove_l. exact H.
    + induction l1 as [| x l1 IH]; intros a Ha; [destruct Ha |].
      simpl in H. apply NoDup_cons_iff in H. destruct H as [Hx H].
      destruct Ha as [Ha | Ha].
      * subst x. intros Hin. apply Hx. apply in_or_app. right. exact Hin.
      * apply IH; assumption.
  - intros (H1 & H2 & H). apply NoDup_app; assumption.
Qed.

Lemma alarm_ids_cons :
  forall u rest,
    map fst (Stack.alarms (u :: rest))
    = ("AvailAlarm" ++ Stack._to_id_fragment u)%string
      :: ("LatencyAlarm" ++ Stack._to_id_fragment u)%string
      :: map fst (Stack.alarms rest).
Proof. intros u rest. reflexivity. Qed.

Lemma in_alarm_ids :
  forall x sites,
    (In ("AvailAlarm" ++ x)%string (map fst (Stack.alarms sites))
     <-> In x (map Stack._to_id_fragment sites)) /\
    (In ("LatencyAlarm" ++ x)%string (map fst (Stack.alarms sites))
     <-> In x (map Stack._to_id_fragment sites)).
Proof.
  intros x sites.
  induction sites as [| u rest [IHa IHl]].
  - split; reflexivity.
  - rewrite alarm_ids_cons. cbn [map In]. split.
    + split.
      * intros [H | [H | H]].
        -- left. simpl in H. now injection H.
        -- simpl in H. discriminate H.
        -- right. apply IHa. exact H.
      * intros [H | H].
        -- left. now subst.
        -- right. right. apply IHa. exact H.
    + split.
      * intros [H | [H | H]].
        -- simpl in H. discriminate H.
        -- left. simpl in H. now injection H.
        -- right. apply IHl. exact H.
      * intros [H | H].
        -- right. left. now subst.
        -- right. right. apply IHl. exact H.
Qed.

Lemma alarm_ids_nodup :
  forall sites,
    NoDup (map fst (Stack.alarms sites))
    <-> NoDup (map Stack._to_id_fragment sites).
Proof.
  induction sites as [| u rest IH].
  - split; intros _; constructor.
  - rewrite alarm_ids_cons. cbn [map].
    rewrite !NoDup_cons_iff, IH.
    destruct (in_alarm_ids (Stack._to_id_fragment u) rest) as [Ha Hl].
    split.
    + intros (Hav & Hlt & Hnd). split; [| exact Hnd].
      intros Hin. apply Hlt. apply Hl. exact Hin.
    + intros (Hf & Hnd). split; [| split; [| exact Hnd]].
      * intros [H | H].
        -- simpl in H. discriminate H.
        -- apply Hf. apply Ha. exact H.
      * intros H. apply Hf. apply Hl. exact H.
Qed.

(** An alarm id is the id of no other construct of the stack. *)
Lemma alarm_id_shape :
  forall sites id,
    In id (map fst (Stack.alarms sites)) ->
    exists x, id = ("AvailAlarm" ++ x)%string
              \/ id = ("LatencyAlarm" ++ x)%string.
Proof.
  induction sites as [| u rest IH]; intros id H; [destruct H |].
  rewrite alarm_ids_cons in H. destruct H as [H | [H | H]].
  - eexists. left. symmetry. exact H.
  - eexists. right. symmetry. exact H.
  - apply IH. exact H.
Qed.

(** X20.  The ids of the constructs of the stack are pairwise distinct
    exactly when the fragments of the configured URLs are: the alarm ids
    never clash with the fixed ids nor an Availability id with a Latency
    id, so the only possible clash is between two URLs with the same
    fragment. *)
Theorem construct_ids_distinct_iff_fragments_distinct :
  forall sites,
    NoDup (Stack.construct_ids sites)
    <-> NoDup (map Stack._to_id_fragment sites).
Proof.
  intros sites. unfold Stack.construct_ids.
  rewrite <- alarm_ids_nodup.
  rewrite !NoDup_app_iff.
  split.
  - intros (_ & (H & _ & _) & _). exact H.
  - intros H. split; [| split; [split; [exact H | split] |]].
    + repeat (constructor; [simpl; intuition discriminate |]). constructor.
    + repeat (constructor; [simpl; intuition discriminate |]). constructor.
    + intros id Hid Hfix.
      destruct (alarm_id_shape sites id Hid) as [x [Hx | Hx]]; subst id;
        simpl in Hfix; intuition discriminate.
    + intros id Hfix Hin. apply in_app_or in Hin.
      destruct Hin as [Hin | Hin].
      * destruct (alarm_id_shape sites id Hin) as [x [Hx | Hx]]; subst id;
          simpl in Hfix; intuition discriminate.
      * simpl in Hfix, Hin.
        repeat (destruct Hfix as [Hfix | Hfix];
                [subst id; intuition discriminate |]).
        exact Hfix.
Qed.

(** X21.  The alarms of the stack watch exactly the metrics the prober
    publishes: for every configured URL and each of the two samples of a
    publish call for it, the stack declares an alarm on the metric with the
    same namespace, the same name and the same single dimension URL, and
    every alarm of the stack is of that kind. *)
Theorem alarms_watch_published_metrics :
  forall sites,
    (forall u st lat datum,
        In u sites ->
        In datum (Crawler.metric_data u st lat) ->
        exists id a,
          In (id, a) (Stack.alarms sites) /\
          Stack.namespace (Stack.metric a) = Crawler.NAMESPACE /\
          Stack.metric_name (Stack.metric a) = Crawler.MetricName datum /\
          Stack.dimensions_map (Stack.metric a)
          = map (fun d => (Crawler.Name d, Crawler.Value d))
                (Crawler.Dimensions datum)) /\
    (forall id a,
        In (id, a) (Stack.alarms sites) ->
        exists u,
          In u sites /\
          forall st lat,
            exists datum,
              In datum (Crawler.metric_data u st lat) /\
              Stack.namespace (Stack.metric a) = Crawler.NAMESPACE /\
              Stack.metric_name (Stack.metric a) = Crawler.MetricName datum /\
              Stack.dimensions_map (Stack.metric a)
              = map (fun d => (Crawler.Name d, Crawler.Value d))
                    (Crawler.Dimensions datum)).
Proof.
  intros sites. split.
  - intros u st lat datum Hu Hd.
    assert (Hin : forall p, In p (Stack.url_alarms u) ->
                            In p (Stack.alarms sites)).
    { intros p Hp. unfold Stack.alarms. apply in_flat_map.
      exists u. split; assumption. }
    simpl in Hd. destruct Hd as [Hd | [Hd | []]]; subst datum.
    + exists ("AvailAlarm" ++ Stack._to_id_fragment u)%string,
        (Stack.av_alarm u).
      split; [apply Hin; left; reflexivity | repeat split].
    + exists ("LatencyAlarm" ++ Stack._to_id_fragment u)%string,
        (Stack.lt_alarm u).
      split; [apply Hin; right; left; reflexivity | repeat split].
  - intros id a Hin. unfold Stack.alarms in Hin.
    apply in_flat_map in Hin. destruct Hin as (u & Hu & Hp).
    exists u. split; [exact Hu |]. intros st lat.
    simpl in Hp. destruct Hp as [Hp | [Hp | []]];
      injection Hp as Hid Ha; subst id a.
    + eexists. split; [left; reflexivity | repeat split].
    + eexists. split; [right; left; reflexivity | repeat split].
Qed.

Lemma alarms_watch_published_metrics_witness :
  exists id a,
    In (id, a) (Stack.alarms ["https://example.com"]) /\
    Stack.namespace (Stack.metric a) = Crawler.NAMESPACE /\
    Stack.metric_name (Stack.metric a) = "Latency" /\
    Stack.dimensions_map (Stack.metric a) = [("URL", "https://example.com")].
Proof.
  apply (proj1 (alarms_watch_published_metrics ["https://example.com"])
           "https://example.com" 0%Z 0%float
           (Crawler.mkMetricDatum "Latency"
              [Crawler.mkDimension "URL" "https://example.com"]
              (Crawler.NFloat 0) "Milliseconds")).
  - left. reflexivity.
  - right. left. reflexivity.
Defined.


(** X23.  The dashboard charts what the alarms evaluate: with no URL
    configured it gets no widget at all; otherwise it gets exactly two, the
    first with the Availability metric and the second with the Latency
    metric of every URL, in the order of the URLs, and these are the very
    metrics of the alarms of these URLs. *)
Theorem dashboard_charts_alarm_metrics :
  forall sites,
    Stack.dashboard_widgets sites
    = match sites with
      | [] => []
      | _ =>
          [ Stack.mkGraphWidget "Website Availability (per URL)"
              (map (fun u => Stack.metric (Stack.av_alarm u)) sites) 24;
            Stack.mkGraphWidget "Website Latency (ms per URL)"
              (map (fun u => Stack.metric (Stack.lt_alarm u)) sites) 24 ]
      end /\
    List.length (Stack.alarms sites) = 2 * List.length sites.
Proof.
  intros sites. split.
  - destruct sites as [| u rest]; reflexivity.
  - induction sites as [| u rest IH]; [reflexivity |].
    unfold Stack.alarms in *. cbn [flat_map]. rewrite length_app, IH.
    simpl. lia.
Qed.
